(** * whisper-fun: the ASR backend (backend/app.py)

  A shallow embedding of the Flask service in [backend/app.py]:
  the health-check handler, the upload handler, the lazily loaded
  model handle and the command-line entry [transcribe_file].

  The collaborators that live outside the repository (the multipart
  parser, [uuid.uuid4], the [ffmpeg] process, the faster-whisper
  model) answer through an [Oracle] record that every theorem
  quantifies over.  What the handler itself does with those answers
  (which files it writes, which calls it makes and in which order,
  which response it builds) is translated statement by statement.

  The disk is a finite map from paths to contents.  Writing a file
  ([f.save], [json.dump]) always succeeds, and ffmpeg writes nothing
  but the output path it is given.  Requests are handled one after
  the other. *)

From Stdlib Require Import ZArith Ascii String List Lia.
From Stdlib Require Import Floats.SpecFloat.
From stdpp Require Import base option list strings gmap.

Local Open Scope string_scope.
Local Open Scope Z_scope.

#[local] Set Warnings "-register-all".

(** ** Python strings

  A Python [str] is modelled as a [string], one [ascii] per
  character.  [lower] and [strip] act on the ASCII range, as the
  Python methods do there. *)

Module Py.

Definition is_upper (c : ascii) : bool :=
  let n := nat_of_ascii c in (Nat.leb 65 n && Nat.leb n 90)%bool.

Definition lower_char (c : ascii) : ascii :=
  if is_upper c then ascii_of_nat (nat_of_ascii c + 32) else c.

(** [s.lower()] *)
Fixpoint lower (s : string) : string :=
  match s with
  | EmptyString => EmptyString
  | String c s' => String (lower_char c) (lower s')
  end.

(** [c.isspace()] on the ASCII range: TAB, LF, VT, FF, CR, the four
    separators FS, GS, RS, US, and SPACE. *)
Definition isspace (c : ascii) : bool :=
  let n := nat_of_ascii c in
  ((Nat.leb 9 n && Nat.leb n 13) || (Nat.leb 28 n && Nat.leb n 32))%bool.

(** [s.lstrip()] *)
Fixpoint lstrip (s : string) : string :=
  match s with
  | EmptyString => EmptyString
  | String c s' => if isspace c then lstrip s' else s
  end.

(** [s.rstrip()] *)
Fixpoint rstrip (s : string) : string :=
  match s with
  | EmptyString => EmptyString
  | String c s' =>
      match rstrip s' with
      | EmptyString => if isspace c then EmptyString else String c EmptyString
      | r => String c r
      end
  end.

(** [s.strip()] *)
Definition strip (s : string) : string := rstrip (lstrip s).

(** [sep.join(parts)] *)
Fixpoint join (sep : string) (parts : list string) : string :=
  match parts with
  | [] => ""
  | [x] => x
  | x :: rest => x ++ sep ++ join sep rest
  end.

(** [s.rfind(c)] for a one-character needle: the highest index
    holding [c], or [-1]. *)
Fixpoint rfind_from (c : ascii) (s : string) (i : Z) (best : Z) : Z :=
  match s with
  | EmptyString => best
  | String d s' =>
      rfind_from c s' (i + 1) (if Ascii.eqb d c then i else best)
  end.

Definition rfind (c : ascii) (s : string) : Z := rfind_from c s 0 (-1).

(** [s[i:i+1]] as an optional character, for [0 <= i]. *)
Definition char_at (s : string) (i : Z) : option ascii :=
  if i <? 0 then None else String.get (Z.to_nat i) s.

(** [s[:n]] and [s[n:]] for [0 <= n]. *)
Fixpoint take (n : nat) (s : string) : string :=
  match n, s with
  | O, _ => ""
  | S _, EmptyString => ""
  | S n', String c s' => String c (take n' s')
  end.

Fixpoint drop (n : nat) (s : string) : string :=
  match n, s with
  | O, _ => s
  | S _, EmptyString => ""
  | S n', String _ s' => drop n' s'
  end.

(** [s.startswith(c)] and [s.endswith(c)] for a one-character [c]. *)
Definition startswith (c : ascii) (s : string) : bool :=
  match s with
  | String d _ => Ascii.eqb d c
  | EmptyString => false
  end.

Fixpoint endswith (c : ascii) (s : string) : bool :=
  match s with
  | EmptyString => false
  | String d EmptyString => Ascii.eqb d c
  | String _ s' => endswith c s'
  end.

(** [s.split(",")]: always at least one field. *)
Fixpoint split_comma_acc (s : string) (cur : string) : list string :=
  match s with
  | EmptyString => [cur]
  | String c s' =>
      if Ascii.eqb c ","%char then cur :: split_comma_acc s' ""
      else split_comma_acc s' (cur ++ String c "")
  end.

Definition split_comma (s : string) : list string := split_comma_acc s "".

End Py.

(** ** [os.path] (POSIX flavour) *)

Module OsPath.

Definition sep : ascii := "/"%char.
Definition extsep : ascii := "."%char.

(** The loop of [genericpath._splitext] that skips the leading dots
    of the last path component: [true] when a character other than
    the dot is met before [dotIndex]. *)
Fixpoint has_stem (p : string) (dotIndex : Z) (fuel : nat)
         (filenameIndex : Z) : bool :=
  match fuel with
  | O => false
  | S fuel' =>
      if filenameIndex <? dotIndex then
        match Py.char_at p filenameIndex with
        | Some c =>
            if Ascii.eqb c extsep
            then has_stem p dotIndex fuel' (filenameIndex + 1)
            else true
        | None => true
        end
      else false
  end.

(** [os.path.splitext(p)] *)
Definition splitext (p : string) : string * string :=
  let sepIndex := Py.rfind sep p in
  let dotIndex := Py.rfind extsep p in
  if (sepIndex <? dotIndex)
     && has_stem p dotIndex (String.length p) (sepIndex + 1)
  then (Py.take (Z.to_nat dotIndex) p, Py.drop (Z.to_nat dotIndex) p)
  else (p, "").

(** [os.path.join(a, b)] *)
Definition join (a b : string) : string :=
  if Py.startswith sep b then b
  else if (String.eqb a "" || Py.endswith sep a)%bool then a ++ b
  else a ++ String sep "" ++ b.

(** [os.path.basename(p)] *)
Definition basename (p : string) : string :=
  Py.drop (Z.to_nat (Py.rfind sep p + 1)) p.

End OsPath.

(** ** Data *)

(** A Python value as far as [jsonify] and [json.dump] see it.  A
    [dict] keeps its insertion order, so it is an association list. *)
Inductive JSON : Type :=
| JNull
| JBool (b : bool)
| JNum (x : spec_float)
| JStr (s : string)
| JList (l : list JSON)
| JDict (kv : list (string * JSON)).

(** [d[k]] on a [dict], [None] where Python raises [KeyError]. *)
Fixpoint assoc (k : string) (kv : list (string * JSON)) : option JSON :=
  match kv with
  | [] => None
  | (k', v) :: rest => if String.eqb k' k then Some v else assoc k rest
  end.

Definition dict_get (k : string) (d : JSON) : option JSON :=
  match d with
  | JDict kv => assoc k kv
  | _ => None
  end.


Definition list_items (d : JSON) : list JSON :=
  match d with
  | JList l => l
  | _ => []
  end.

(** [s["text"]] of a segment dict, as a string. *)
Definition text_of (d : JSON) : string :=
  match dict_get "text" d with
  | Some (JStr t) => t
  | _ => ""
  end.

Definition JOptStr (o : option string) : JSON :=
  match o with
  | Some s => JStr s
  | None => JNull
  end.

Definition JOptNum (o : option spec_float) : JSON :=
  match o with
  | Some x => JNum x
  | None => JNull
  end.

(** The module-level configuration, read from the environment once. *)
Record Config : Type := {
  UPLOAD_DIR : string;
  RESULT_DIR : string;
  ALLOWED_EXT : gset string;
  MODEL_SIZE : string;
  DEVICE : string;
  COMPUTE_TYPE : string
}.

(** [os.getenv(k, d)] *)
Definition getenv (env : gmap string string) (k d : string) : string :=
  default d (env !! k).

Definition load_config (env : gmap string string) : Config := {|
  UPLOAD_DIR := getenv env "UPLOAD_DIR" "uploads";
  RESULT_DIR := getenv env "RESULT_DIR" "results";
  ALLOWED_EXT :=
    list_to_set
      (Py.split_comma
         (getenv env "ALLOWED_EXT" ".mp3,.wav,.m4a,.flac,.mp4,.mov,.mkv"));
  MODEL_SIZE := getenv env "MODEL_SIZE" "small";
  DEVICE := getenv env "DEVICE" "auto";
  COMPUTE_TYPE := getenv env "COMPUTE_TYPE" "auto"
|}.

Definition default_config : Config := load_config ∅.

(** An uploaded part: werkzeug's [FileStorage]. *)
Record FileStorage : Type := {
  filename : string;
  stream : string
}.

(** [bool(f)] for a [FileStorage] is [bool(f.filename)]. *)
Definition FileStorage_bool (f : FileStorage) : bool :=
  negb (String.eqb (filename f) "").

(** The parts of [flask.request] the handler reads:
    [request.files.get("file")], [request.form.get("language")],
    [request.form.get("task")]. *)
Record Request : Type := {
  files_file : option FileStorage;
  form_language : option string;
  form_task : option string
}.

Record Response : Type := {
  status : Z;
  body : JSON
}.

(** [jsonify(d), code] *)
Definition jsonify (d : JSON) (code : Z) : Response :=
  {| status := code; body := d |}.

(** A [faster_whisper.WhisperModel] object: its identity and the
    arguments it was constructed with. *)
Record WhisperModel : Type := {
  wm_id : nat;
  wm_size : string;
  wm_device : string;
  wm_compute_type : string
}.

(** The fields of a faster-whisper segment that the code reads. *)
Record Segment : Type := {
  seg_start : spec_float;
  seg_end : spec_float;
  seg_text : string
}.

(** The transcription info; [None] stands for a missing attribute,
    where [getattr] falls back to its default. *)
Record TranscriptionInfo : Type := {
  info_duration : option spec_float;
  info_language : option string
}.

(** What a file on disk holds: raw bytes (an upload, a WAV written by
    ffmpeg) or a JSON document written by [json.dump]. *)
Inductive FileData : Type :=
| Bytes (b : string)
| JsonText (doc : JSON).

(** The mutable state: the module global [_model] and the disk. *)
Record State : Type := {
  _model : option WhisperModel;
  fs : gmap string FileData
}.

Definition set_model (m : option WhisperModel) (s : State) : State :=
  {| _model := m; fs := fs s |}.

Definition write_file (p : string) (d : FileData) (s : State) : State :=
  {| _model := _model s; fs := <[p := d]> (fs s) |}.

(** The calls that leave the handler.  The constructor call is logged
    with its outcome: the message it raised, or the identity of the
    object it returned. *)
Inductive Event : Type :=
| EvSave (path : string)
| EvSubprocess (cmd : list string)
| EvWhisperModel (size device compute_type : string) (outcome : string + nat)
| EvTranscribe (m : WhisperModel) (audio_path : string)
    (language : option string) (task : string)
| EvJsonDump (path : string)
| EvPrint (line : string).

(** The outcome of [subprocess.run(cmd, ...)]: the call itself raises
    (the binary is missing), or the process completes with a return
    code and its stderr; [written] is what ffmpeg left at its output
    path, if anything. *)
Inductive ProcessRun : Type :=
| RunRaises (msg : string)
| Completed (returncode : Z) (stderr : string) (written : option string).

(** The answers of the outside world during one request.  A request
    draws one job id and calls ffmpeg, the constructor and
    [model.transcribe] at most once each, so one answer per
    collaborator is enough.  An exception is represented by [str(e)];
    for [model.transcribe] it may be raised while the segments are
    iterated. *)
Record Oracle : Type := {
  uuid4 : string;
  subprocess_run : ProcessRun;
  WhisperModel_new : string + nat;
  model_transcribe : string + (list Segment * TranscriptionInfo)
}.

(** ** The handler monad

    A computation reads and updates the [State], may raise a Python
    exception (kept as its message), and records the calls it makes.
    A raised exception keeps the state and the calls made so far:
    nothing is rolled back. *)

Definition M (A : Type) : Type :=
  State → (string + A) * State * list Event.

Definition ret {A} (a : A) : M A := fun s => (inr a, s, []).

Definition bind {A B} (m : M A) (k : A → M B) : M B :=
  fun s =>
    match m s with
    | (inl e, s1, t1) => (inl e, s1, t1)
    | (inr a, s1, t1) =>
        match k a s1 with
        | (r, s2, t2) => (r, s2, (t1 ++ t2)%list)
        end
    end.

(** [raise Exception(msg)] *)
Definition raise {A} (msg : string) : M A := fun s => (inl msg, s, []).

(** [try: m  except Exception as e: ...], handing [str(e)] to the
    continuation. *)
Definition try_ {A} (m : M A) : M (string + A) :=
  fun s => match m s with (r, s1, t1) => (inr r, s1, t1) end.

Definition get_state : M State := fun s => (inr s, s, []).
Definition modify (f : State → State) : M unit := fun s => (inr tt, f s, []).
Definition emit (e : Event) : M unit := fun s => (inr tt, s, [e]).

Declare Scope py_scope.
Delimit Scope py_scope with py.
Notation "x <- m ;; k" := (bind m (fun x => k))
  (at level 100, m at next level, right associativity) : py_scope.
Notation "m ;;; k" := (bind m (fun _ => k))
  (at level 100, right associativity) : py_scope.
Local Open Scope py_scope.

(** The three projections of a run. *)
Definition result_of {A} (r : (string + A) * State * list Event) : string + A :=
  fst (fst r).
Definition state_of {A} (r : (string + A) * State * list Event) : State :=
  snd (fst r).
Definition calls_of {A} (r : (string + A) * State * list Event) : list Event :=
  snd r.

(** ** The service *)

Section Service.

Variable cfg : Config.
Variable world : Oracle.

(** [f.save(dst)] *)
Definition save (f : FileStorage) (dst : string) : M unit :=
  emit (EvSave dst) ;;;
  modify (write_file dst (Bytes (stream f))).

(** [subprocess.run(cmd, ...)] for an ffmpeg command whose output
    path is [out_path]; returns [(returncode, stderr)].  What the
    process wrote, if anything, is at [out_path] whatever its return
    code. *)
Definition run_process (cmd : list string) (out_path : string) : M (Z * string) :=
  emit (EvSubprocess cmd) ;;;
  match subprocess_run world with
  | RunRaises msg => raise msg
  | Completed rc err w =>
      match w with
      | Some b => modify (write_file out_path (Bytes b))
      | None => ret tt
      end ;;;
      ret (rc, err)
  end.

(** [with open(path, "w") as fp: json.dump(doc, fp)] *)
Definition json_dump (doc : JSON) (path : string) : M unit :=
  emit (EvJsonDump path) ;;;
  modify (write_file path (JsonText doc)).

(** [WhisperModel(size, device=..., compute_type=...)], the import
    included. *)
Definition new_WhisperModel (size device compute_type : string) : M WhisperModel :=
  emit (EvWhisperModel size device compute_type (WhisperModel_new world)) ;;;
  match WhisperModel_new world with
  | inl msg => raise msg
  | inr i =>
      ret {| wm_id := i; wm_size := size; wm_device := device;
             wm_compute_type := compute_type |}
  end.

(** [model.transcribe(audio_path, language=..., task=...)], the
    segment generator consumed. *)
Definition transcribe (m : WhisperModel) (audio_path : string)
    (language : option string) (task : string)
  : M (list Segment * TranscriptionInfo) :=
  emit (EvTranscribe m audio_path language task) ;;;
  match model_transcribe world with
  | inl msg => raise msg
  | inr r => ret r
  end.

Definition get_model : M WhisperModel :=
  s <- get_state ;;
  match _model s with
  | None =>
      let device_arg := if String.eqb (DEVICE cfg) "auto" then "cpu" else DEVICE cfg in
      let compute_arg :=
        if String.eqb (COMPUTE_TYPE cfg) "auto" then "default" else COMPUTE_TYPE cfg in
      m <- new_WhisperModel (MODEL_SIZE cfg) device_arg compute_arg ;;
      modify (set_model (Some m)) ;;;
      ret m
  | Some m => ret m
  end.

Definition video_exts : gset string :=
  {[ ".mp4"; ".mov"; ".mkv"; ".avi"; ".wmv"; ".m4v" ]}.

Definition is_video (ext : string) : bool :=
  bool_decide (Py.lower ext ∈ video_exts).

Definition ffmpeg_cmd (in_path out_path : string) : list string :=
  ["ffmpeg"; "-y"; "-i"; in_path; "-vn"; "-ac"; "1"; "-ar"; "16000"; out_path].

Definition ffmpeg_extract_audio (in_path out_path : string) : M unit :=
  let cmd := ffmpeg_cmd in_path out_path in
  res <- run_process cmd out_path ;;
  if negb (fst res =? 0)
  then raise ("ffmpeg failed: " ++ Py.take 500 (snd res))
  else ret tt.

Definition healthz : Response :=
  jsonify (JDict [("ok", JBool true); ("service", JStr "asr-backend")]) 200.

(** [{"start": s.start, "end": s.end, "text": s.text}] *)
Definition seg_dict (s : Segment) : JSON :=
  JDict [("start", JNum (seg_start s)); ("end", JNum (seg_end s));
         ("text", JStr (seg_text s))].

(** [" ".join(s["text"].strip() for s in segs)] *)
Definition full_text_of (segs : list JSON) : string :=
  Py.join " " (map (fun s => Py.strip (text_of s)) segs).

Definition build_result (f : FileStorage) (info : TranscriptionInfo)
    (segs : list JSON) (full_text audio_path : string)
    (language : option string) (task : string) : JSON :=
  JDict [
    ("duration_sec", JOptNum (info_duration info));
    ("language",
       match info_language info with
       | Some l => JStr l
       | None => JOptStr language
       end);
    ("segments", JList segs);
    ("text", JStr full_text);
    ("meta", JDict [
       ("source_filename", JStr (filename f));
       ("audio_path", JStr (OsPath.basename audio_path));
       ("model", JStr (MODEL_SIZE cfg));
       ("task", JStr task)])
  ].

(** The [try] block of [upload] with its [except] clause. *)
Definition upload_transcribe (f : FileStorage) (job_id audio_path : string)
    (language : option string) (task : string) : M Response :=
  r <- try_ (
    model <- get_model ;;
    si <- transcribe model audio_path language task ;;
    let segs := map seg_dict (fst si) in
    let full_text := full_text_of segs in
    let result :=
      build_result f (snd si) segs full_text audio_path language task in
    let out_path := OsPath.join (RESULT_DIR cfg) (job_id ++ ".json") in
    json_dump result out_path ;;;
    ret (jsonify (JDict [("job_id", JStr job_id); ("status", JStr "done");
                         ("result", result)]) 200)) ;;
  match r with
  | inr resp => ret resp
  | inl e =>
      ret (jsonify (JDict [("error", JStr "transcription failed");
                           ("detail", JStr e)]) 500)
  end.

(** [os.path.splitext(f.filename)[1].lower()] *)
Definition ext_of (f : FileStorage) : string :=
  Py.lower (snd (OsPath.splitext (filename f))).

(** [request.form.get("language") or None] *)
Definition language_of (request : Request) : option string :=
  match form_language request with
  | Some l => if String.eqb l "" then None else Some l
  | None => None
  end.

(** [request.form.get("task", "transcribe")] *)
Definition task_of (request : Request) : string :=
  default "transcribe" (form_task request).

(** [os.path.join(UPLOAD_DIR, f"{job_id}{ext}")] *)
Definition src_path_of (f : FileStorage) : string :=
  OsPath.join (UPLOAD_DIR cfg) (uuid4 world ++ ext_of f).

(** [os.path.join(UPLOAD_DIR, f"{job_id}.wav")] *)
Definition wav_path : string :=
  OsPath.join (UPLOAD_DIR cfg) (uuid4 world ++ ".wav").

(** [os.path.join(RESULT_DIR, f"{job_id}.json")] *)
Definition out_path : string :=
  OsPath.join (RESULT_DIR cfg) (uuid4 world ++ ".json").

Definition upload (request : Request) : M Response :=
  let f := files_file request in
  let language := language_of request in
  let task := task_of request in
  match f with
  | None => ret (jsonify (JDict [("error", JStr "file is required")]) 400)
  | Some f =>
      if negb (FileStorage_bool f)
      then ret (jsonify (JDict [("error", JStr "file is required")]) 400)
      else
        let ext := ext_of f in
        if negb (bool_decide (ext ∈ ALLOWED_EXT cfg))
        then ret (jsonify
                    (JDict [("error",
                             JStr ("extension " ++ ext ++ " not allowed"))]) 400)
        else
          let job_id := uuid4 world in
          let src_path := src_path_of f in
          save f src_path ;;;
          if is_video ext then
            let audio_path := wav_path in
            r <- try_ (ffmpeg_extract_audio src_path audio_path) ;;
            match r with
            | inl e =>
                ret (jsonify (JDict [("error", JStr "audio extraction failed");
                                     ("detail", JStr e)]) 500)
            | inr _ =>
                upload_transcribe f job_id audio_path language task
            end
          else upload_transcribe f job_id src_path language task
  end.

Definition nl : string := String "010"%char "".

Definition print (line : string) : M unit := emit (EvPrint line).

(** The [try] block of [transcribe_file] with its [except] clause. *)
Definition cli_transcribe (audio_path : string) : M unit :=
  r <- try_ (
    model <- get_model ;;
    si <- transcribe model audio_path None "transcribe" ;;
    let segs := map seg_dict (fst si) in
    let full_text := full_text_of segs in
    print (nl ++ "Transcription result:" ++ nl) ;;;
    print full_text) ;;
  match r with
  | inr _ => ret tt
  | inl e => print ("Transcription failed: " ++ e)
  end.

Definition transcribe_file (file_path : string) : M unit :=
  let ext := Py.lower (snd (OsPath.splitext file_path)) in
  if is_video ext then
    let audio_path := fst (OsPath.splitext file_path) ++ ".wav" in
    r <- try_ (ffmpeg_extract_audio file_path audio_path) ;;
    match r with
    | inl e => print ("Audio extraction failed: " ++ e)
    | inr _ => cli_transcribe audio_path
    end
  else cli_transcribe file_path.

End Service.

(** ** The server: requests handled one after the other *)

Inductive Call : Type :=
| Healthz
| Upload (world : Oracle) (request : Request).

Definition handle (cfg : Config) (c : Call) : M Response :=
  match c with
  | Healthz => ret healthz
  | Upload world request => upload cfg world request
  end.

Fixpoint serve (cfg : Config) (cs : list Call) : M (list Response) :=
  match cs with
  | [] => ret []
  | c :: cs' =>
      r <- handle cfg c ;;
      rs <- serve cfg cs' ;;
      ret (r :: rs)
  end.

(** ** Vocabulary of the statements *)

Definition is_ffmpeg_call (e : Event) : bool :=
  match e with
  | EvSubprocess _ => true
  | _ => false
  end.

Definition is_model_call (e : Event) : bool :=
  match e with
  | EvWhisperModel _ _ _ _ => true
  | EvTranscribe _ _ _ _ => true
  | _ => false
  end.

Definition is_constructor_call (e : Event) : bool :=
  match e with
  | EvWhisperModel _ _ _ _ => true
  | _ => false
  end.

(** A constructor call that returned a model. *)
Definition is_construction (e : Event) : bool :=
  match e with
  | EvWhisperModel _ _ _ (inr _) => true
  | _ => false
  end.

Fixpoint constructions (t : list Event) : nat :=
  match t with
  | [] => O
  | e :: t' => ((if is_construction e then 1 else 0) + constructions t')%nat
  end.

(** The upload passes both validation steps of the handler. *)
Definition accepted (cfg : Config) (request : Request) (f : FileStorage) : Prop :=
  files_file request = Some f
  ∧ FileStorage_bool f = true
  ∧ ext_of f ∈ ALLOWED_EXT cfg.

(** The path handed to the model: the WAV for a video, else the
    saved upload. *)
Definition audio_path_of (cfg : Config) (world : Oracle) (f : FileStorage) : string :=
  if is_video (ext_of f) then wav_path cfg world else src_path_of cfg world f.



(** The state after [f.save(src_path)]. *)
Definition saved (cfg : Config) (world : Oracle) (f : FileStorage) (s : State) : State :=
  write_file (src_path_of cfg world f) (Bytes (stream f)) s.

(** [device_arg] and [compute_arg] of [get_model], and the object the
    constructor returns for identity [i]. *)
Definition device_arg (cfg : Config) : string :=
  if String.eqb (DEVICE cfg) "auto" then "cpu" else DEVICE cfg.

Definition compute_arg (cfg : Config) : string :=
  if String.eqb (COMPUTE_TYPE cfg) "auto" then "default" else COMPUTE_TYPE cfg.

Definition built_model (cfg : Config) (i : nat) : WhisperModel :=
  {| wm_id := i; wm_size := MODEL_SIZE cfg; wm_device := device_arg cfg;
     wm_compute_type := compute_arg cfg |}.

(** What [ffmpeg_extract_audio] comes to, read off the oracle: the
    exception it raises if any, and the disk it leaves. *)
Definition ffmpeg_result (world : Oracle) : string + unit :=
  match subprocess_run world with
  | RunRaises msg => inl msg
  | Completed rc err _ =>
      if negb (rc =? 0) then inl ("ffmpeg failed: " ++ Py.take 500 err)
      else inr tt
  end.

Definition ffmpeg_state (world : Oracle) (out : string) (s : State) : State :=
  match subprocess_run world with
  | Completed _ _ (Some b) => write_file out (Bytes b) s
  | _ => s
  end.

(** The two error bodies of [upload]'s [except] clauses. *)
Definition error_500 (what detail : string) : Response :=
  jsonify (JDict [("error", JStr what); ("detail", JStr detail)]) 500.

(** The state in which the [try] block of [upload] starts: the upload
    saved and, for a video, ffmpeg run. *)
Definition pre_model_state (cfg : Config) (world : Oracle) (f : FileStorage)
    (s : State) : State :=
  if is_video (ext_of f)
  then ffmpeg_state world (wav_path cfg world) (saved cfg world f s)
  else saved cfg world f s.

(** The result record that [upload] builds from the model's answer. *)
Definition result_for (cfg : Config) (world : Oracle) (request : Request)
    (f : FileStorage) (segments : list Segment) (info : TranscriptionInfo) : JSON :=
  build_result cfg f info (map seg_dict segments)
    (full_text_of (map seg_dict segments)) (audio_path_of cfg world f)
    (language_of request) (task_of request).




(** ** Sample inputs *)

Definition fresh_state : State := {| _model := None; fs := ∅ |}.

Definition talk_mp3 : FileStorage := {| filename := "talk.mp3"; stream := "ID3" |}.
Definition clip_mp4 : FileStorage := {| filename := "Clip.MP4"; stream := "ftyp" |}.

Definition request_of (f : FileStorage) : Request :=
  {| files_file := Some f; form_language := None; form_task := None |}.

Definition empty_request : Request :=
  {| files_file := None; form_language := Some "en"; form_task := None |}.

Definition two_segments : list Segment :=
  [ {| seg_start := S754_zero false; seg_end := S754_finite false 3 (-1);
       seg_text := " Hello there." |};
    {| seg_start := S754_finite false 3 (-1); seg_end := S754_finite false 3 0;
       seg_text := " General remarks. " |} ].

Definition info_en : TranscriptionInfo :=
  {| info_duration := Some (S754_finite false 3 0); info_language := Some "en" |}.

(** Every collaborator answers. *)
Definition world_ok : Oracle := {|
  uuid4 := "1b4e28ba";
  subprocess_run := Completed 0 "" (Some "RIFF");
  WhisperModel_new := inr 1%nat;
  model_transcribe := inr (two_segments, info_en)
|}.

(** ffmpeg exits with an error; the model would fail as well. *)
Definition world_ffmpeg_fails : Oracle := {|
  uuid4 := "1b4e28ba";
  subprocess_run := Completed 1 "Invalid data found" None;
  WhisperModel_new := inl "No module named faster_whisper";
  model_transcribe := inl "unreachable"
|}.

(** The model object loads but the transcription raises. *)
Definition world_model_fails : Oracle := {|
  uuid4 := "1b4e28ba";
  subprocess_run := Completed 0 "" (Some "RIFF");
  WhisperModel_new := inr 1%nat;
  model_transcribe := inl "out of memory"
|}.

(** The construction raises, as when the model cannot be fetched. *)
Definition world_model_unavailable : Oracle := {|
  uuid4 := "9c5b94b1";
  subprocess_run := Completed 0 "" (Some "RIFF");
  WhisperModel_new := inl "model download failed";
  model_transcribe := inr (two_segments, info_en)
|}.

(** The calls [upload] makes before its [try] block. *)
Definition pre_model_calls (cfg : Config) (world : Oracle) (f : FileStorage)
  : list Event :=
  EvSave (src_path_of cfg world f)
    :: (if is_video (ext_of f)
        then [EvSubprocess (ffmpeg_cmd (src_path_of cfg world f) (wav_path cfg world))]
        else []).

(** The five ways a run of [upload] can go, each with the response,
    the final state and the calls made.  [upload_outcome] below shows
    that every run is one of them. *)
Inductive Outcome (cfg : Config) (world : Oracle) (request : Request) (s : State)
  : (string + Response) * State * list Event → Prop :=
| Rejected msg :
    (files_file request = None
     ∨ ∃ f, files_file request = Some f
            ∧ (FileStorage_bool f = false ∨ ext_of f ∉ ALLOWED_EXT cfg)) →
    Outcome cfg world request s
      (inr (jsonify (JDict [("error", JStr msg)]) 400), s, [])
| ExtractionFailed f e :
    accepted cfg request f →
    is_video (ext_of f) = true →
    ffmpeg_result world = inl e →
    Outcome cfg world request s
      (inr (error_500 "audio extraction failed" e),
       pre_model_state cfg world f s,
       pre_model_calls cfg world f)
| ModelUnavailable f e :
    accepted cfg request f →
    (is_video (ext_of f) = true → ffmpeg_result world = inr tt) →
    result_of (get_model cfg world (pre_model_state cfg world f s)) = inl e →
    Outcome cfg world request s
      (inr (error_500 "transcription failed" e),
       state_of (get_model cfg world (pre_model_state cfg world f s)),
       (pre_model_calls cfg world f
          ++ calls_of (get_model cfg world (pre_model_state cfg world f s)))%list)
| TranscriptionFailed f m e :
    accepted cfg request f →
    (is_video (ext_of f) = true → ffmpeg_result world = inr tt) →
    result_of (get_model cfg world (pre_model_state cfg world f s)) = inr m →
    model_transcribe world = inl e →
    Outcome cfg world request s
      (inr (error_500 "transcription failed" e),
       state_of (get_model cfg world (pre_model_state cfg world f s)),
       (pre_model_calls cfg world f
          ++ calls_of (get_model cfg world (pre_model_state cfg world f s))
          ++ [EvTranscribe m (audio_path_of cfg world f)
                (language_of request) (task_of request)])%list)
| Done f m segments info :
    accepted cfg request f →
    (is_video (ext_of f) = true → ffmpeg_result world = inr tt) →
    result_of (get_model cfg world (pre_model_state cfg world f s)) = inr m →
    model_transcribe world = inr (segments, info) →
    Outcome cfg world request s
      (inr (jsonify
              (JDict [("job_id", JStr (uuid4 world)); ("status", JStr "done");
                      ("result", result_for cfg world request f segments info)])
              200),
       write_file (out_path cfg world)
         (JsonText (result_for cfg world request f segments info))
         (state_of (get_model cfg world (pre_model_state cfg world f s))),
       (pre_model_calls cfg world f
          ++ calls_of (get_model cfg world (pre_model_state cfg world f s))
          ++ [EvTranscribe m (audio_path_of cfg world f)
                (language_of request) (task_of request);
              EvJsonDump (out_path cfg world)])%list).

(** The model part of the [try] block: obtain the handle, then run
    the model on the audio. *)
Definition model_step (cfg : Config) (world : Oracle) (audio_path : string)
    (language : option string) (task : string)
  : M (list Segment * TranscriptionInfo) :=
  model <- get_model cfg world ;;
  transcribe world model audio_path language task.

(** The ffmpeg step of [upload], run after the upload is saved. *)
Definition ffmpeg_step (cfg : Config) (world : Oracle) (f : FileStorage)
    (s : State) : (string + unit) * State * list Event :=
  ffmpeg_extract_audio world (src_path_of cfg world f) (wav_path cfg world)
    (saved cfg world f s).

(** The model was run on path [p] during a run with calls [t]. *)
Definition transcribed_on (p : string) (t : list Event) : Prop :=
  ∃ m language task, EvTranscribe m p language task ∈ t.

(** The routing of every accepted upload read as holding
    unconditionally: a video is converted and then transcribed from
    the WAV, anything else is transcribed from the saved upload with
    no conversion. *)
Definition every_accepted_upload_is_transcribed : Prop :=
  ∀ cfg world request f s,
    accepted cfg request f →
    let t := calls_of (upload cfg world request s) in
    (is_video (ext_of f) = true →
       EvSubprocess (ffmpeg_cmd (src_path_of cfg world f) (wav_path cfg world)) ∈ t
       ∧ transcribed_on (wav_path cfg world) t)
    ∧ (is_video (ext_of f) = false →
       (∀ e, e ∈ t → is_ffmpeg_call e = false)
       ∧ transcribed_on (src_path_of cfg world f) t).


(** A computation sees the state through [_model] only: from two
    states with the same handle it returns the same result, makes the
    same calls and leaves the same handle. *)
Definition reads_only_model {A} (m : M A) : Prop :=
  ∀ s1 s2,
    _model s1 = _model s2 →
    result_of (m s1) = result_of (m s2)
    ∧ calls_of (m s1) = calls_of (m s2)
    ∧ _model (state_of (m s1)) = _model (state_of (m s2)).

(** Successive calls to [get_model], one oracle per call: the result
    and the calls of each. *)
Fixpoint get_model_runs (cfg : Config) (ws : list Oracle) (s : State)
  : list ((string + WhisperModel) * list Event) :=
  match ws with
  | [] => []
  | w :: ws' =>
      let r := get_model cfg w s in
      (result_of r, calls_of r) :: get_model_runs cfg ws' (state_of r)
  end.

(** The lazy singleton read as: starting with the handle unset, a
    model is constructed on the first call to [get_model] and on no
    later one. *)
Definition constructed_on_first_call_only : Prop :=
  ∀ cfg ws s k r t,
    _model s = None →
    get_model_runs cfg ws s !! k = Some (r, t) →
    (0 < constructions t)%nat →
    k = 0%nat.

(** [c in s] *)
Fixpoint occurs (c : ascii) (s : string) : bool :=
  match s with
  | EmptyString => false
  | String d s' => (Ascii.eqb d c || occurs c s')%bool
  end.

(** ** Vocabulary of the further properties *)

(** The shape of an extension that [os.path.splitext] can return, in
    lowercase: empty, or a dot followed by characters that are
    neither a dot nor a separator. *)
Definition well_formed_ext (x : string) : Prop :=
  Py.lower x = x
  ∧ (x = ""
     ∨ ∃ y, x = String OsPath.extsep y
            ∧ occurs OsPath.extsep y = false
            ∧ occurs OsPath.sep y = false).

(** A job id as [str(uuid.uuid4())] gives them: no separator and no
    dot. *)
Definition uuid_like (j : string) : Prop :=
  occurs OsPath.sep j = false ∧ occurs OsPath.extsep j = false.

(** The output path of the conversion in [transcribe_file]:
    [os.path.splitext(file_path)[0] + ".wav"]. *)
Definition cli_wav_path (file_path : string) : string :=
  fst (OsPath.splitext file_path) ++ ".wav".

(** The path [transcribe_file] hands to the model. *)
Definition cli_audio_path (file_path : string) : string :=
  if is_video (Py.lower (snd (OsPath.splitext file_path)))
  then cli_wav_path file_path
  else file_path.


(** An environment that sets ALLOWED_EXT with a space after the
    comma and an uppercase entry. *)
Definition env_custom : gmap string string :=
  {[ "ALLOWED_EXT" := ".mp3, .wav,.OGG" ]}.


(** A second request's world, with another job id. *)
Definition world_other : Oracle := {|
  uuid4 := "7d444840";
  subprocess_run := Completed 0 "" (Some "RIFF");
  WhisperModel_new := inr 2%nat;
  model_transcribe := inr ([], info_en)
|}.

(** The state in which [transcribe_file] reaches its second [try]
    block: ffmpeg run for a video, else the state it started in. *)
Definition cli_pre_state (world : Oracle) (file_path : string) (s : State) : State :=
  if is_video (Py.lower (snd (OsPath.splitext file_path)))
  then ffmpeg_state world (cli_wav_path file_path) s
  else s.

(** The calls [transcribe_file] makes before its second [try] block. *)
Definition cli_pre_calls (file_path : string) : list Event :=
  if is_video (Py.lower (snd (OsPath.splitext file_path)))
  then [EvSubprocess (ffmpeg_cmd file_path (cli_wav_path file_path))]
  else [].

(** The lines a run printed, in order. *)
Fixpoint printed (t : list Event) : list string :=
  match t with
  | [] => []
  | EvPrint line :: t' => line :: printed t'
  | _ :: t' => printed t'
  end.

(** The job ids of the uploads of a sequence of calls. *)
Fixpoint job_ids (cs : list Call) : list string :=
  match cs with
  | [] => []
  | Healthz :: cs' => job_ids cs'
  | Upload world _ :: cs' => uuid4 world :: job_ids cs'
  end.

(** * Properties *)

Example splitext_mp3 : OsPath.splitext "talk.MP3" = ("talk", ".MP3").
Proof. reflexivity. Qed.

Example splitext_dotfile : OsPath.splitext "dir.d/.hidden" = ("dir.d/.hidden", "").
Proof. reflexivity. Qed.

Example splitext_two : OsPath.splitext "a/b.tar.gz" = ("a/b.tar", ".gz").
Proof. reflexivity. Qed.

Example join_plain : OsPath.join "uploads" "j.wav" = "uploads/j.wav".
Proof. reflexivity. Qed.

Example basename_plain : OsPath.basename "uploads/j.wav" = "j.wav".
Proof. reflexivity. Qed.

Example strip_both :
  Py.strip (String "009"%char "  hello world " ++ String "010"%char "")
  = "hello world".
Proof. reflexivity. Qed.

Example split_default :
  Py.split_comma ".mp3,.wav" = [".mp3"; ".wav"].
Proof. reflexivity. Qed.

(** ** The string helpers do what their names say *)

Lemma lstrip_no_leading s c r :
  Py.lstrip s = String c r → Py.isspace c = false.
Proof.
  induction s as [| a s IH]; cbn [Py.lstrip]; [discriminate |].
  destruct (Py.isspace a) eqn:Ha; [exact IH |]. by intros [= <- _].
Qed.

Lemma rstrip_no_trailing s c :
  Py.isspace c = true → Py.endswith c (Py.rstrip s) = false.
Proof.
  intros Hc. induction s as [| a s IH]; cbn [Py.rstrip]; [reflexivity |].
  destruct (Py.rstrip s) as [| b r] eqn:Hr.
  - destruct (Py.isspace a) eqn:Ha; [reflexivity |]. cbn [Py.endswith].
    destruct (Ascii.eqb_spec a c) as [-> | _]; [congruence | reflexivity].
  - exact IH.
Qed.

Lemma rstrip_head a s c r :
  Py.rstrip (String a s) = String c r → c = a.
Proof.
  cbn [Py.rstrip]. destruct (Py.rstrip s); [destruct (Py.isspace a) |];
    congruence.
Qed.

(** [strip] leaves no whitespace at either end. *)
Lemma strip_no_leading s c r :
  Py.strip s = String c r → Py.isspace c = false.
Proof.
  unfold Py.strip. destruct (Py.lstrip s) as [| a s'] eqn:Hl; [discriminate |].
  intros H. apply rstrip_head in H as ->. by eapply lstrip_no_leading.
Qed.

Lemma strip_no_trailing s c :
  Py.isspace c = true → Py.endswith c (Py.strip s) = false.
Proof. apply rstrip_no_trailing. Qed.

Lemma lower_idempotent s : Py.lower (Py.lower s) = Py.lower s.
Proof.
  induction s as [| c s IH]; cbn [Py.lower]; [reflexivity |]. rewrite IH.
  f_equal. unfold Py.lower_char at 1.
  destruct (Py.is_upper (Py.lower_char c)) eqn:Hu; [| reflexivity].
  exfalso. revert Hu. unfold Py.lower_char.
  destruct c as [[] [] [] [] [] [] [] []]; by vm_compute.
Qed.

(** The extension handed to [is_video] is already lowercase. *)
Lemma is_video_ext_of f :
  is_video (ext_of f) = bool_decide (ext_of f ∈ video_exts).
Proof. unfold is_video, ext_of. by rewrite lower_idempotent. Qed.


(** ** Paths: the base name of a joined path *)

Lemma append_cons d (x y : string) : String d x ++ y = String d (x ++ y).
Proof. reflexivity. Qed.

Lemma append_nil (y : string) : "" ++ y = y.
Proof. reflexivity. Qed.

Lemma occurs_app c x y : occurs c (x ++ y) = (occurs c x || occurs c y)%bool.
Proof.
  induction x as [| d x IH]; [reflexivity |].
  rewrite append_cons. cbn [occurs]. rewrite IH. by destruct (Ascii.eqb d c).
Qed.

Lemma lower_char_sep c :
  Ascii.eqb (Py.lower_char c) OsPath.sep = Ascii.eqb c OsPath.sep.
Proof. destruct c as [[] [] [] [] [] [] [] []]; reflexivity. Qed.

Lemma occurs_sep_lower s : occurs OsPath.sep (Py.lower s) = occurs OsPath.sep s.
Proof.
  induction s as [| c s IH]; cbn [Py.lower occurs]; [reflexivity |].
  by rewrite IH, lower_char_sep.
Qed.

Lemma rfind_from_lower_bound c s : ∀ i best,
  best < i → best ≤ Py.rfind_from c s i best.
Proof.
  induction s as [| d s IH]; intros i best Hlt; cbn; [lia |].
  destruct (Ascii.eqb d c).
  - etransitivity; [| apply IH]; lia.
  - apply IH. lia.
Qed.

Lemma rfind_from_absent c s : ∀ i best,
  occurs c s = false → Py.rfind_from c s i best = best.
Proof.
  induction s as [| d s IH]; intros i best; cbn; [done |].
  destruct (Ascii.eqb d c); [done |]. cbn. apply IH.
Qed.

Lemma rfind_from_app c x y : ∀ i best,
  Py.rfind_from c (x ++ y) i best
  = Py.rfind_from c y (i + Z.of_nat (String.length x)) (Py.rfind_from c x i best).
Proof.
  induction x as [| d x IH]; intros i best.
  - rewrite append_nil. cbn [Py.rfind_from String.length]. f_equal. lia.
  - rewrite append_cons. cbn [Py.rfind_from String.length]. rewrite IH.
    f_equal. lia.
Qed.

(** Nothing equal to [c] lies beyond the index [rfind] returns. *)
Lemma rfind_from_beyond c s : ∀ i best (k : nat),
  best < i →
  Py.rfind_from c s i best < i + Z.of_nat k →
  occurs c (Py.drop k s) = false.
Proof.
  induction s as [| d s IH]; intros i best k Hlt Hr.
  - by destruct k.
  - cbn [Py.rfind_from] in Hr. destruct k as [| k].
    + cbn [Py.drop occurs]. destruct (Ascii.eqb d c) eqn:Hd.
      * pose proof (rfind_from_lower_bound c s (i + 1) i). lia.
      * cbn. apply (IH (i + 1) best 0%nat); lia.
    + cbn [Py.drop]. apply (IH (i + 1) (if Ascii.eqb d c then i else best) k).
      * destruct (Ascii.eqb d c); lia.
      * lia.
Qed.

Lemma drop_app_length x y : Py.drop (String.length x) (x ++ y) = y.
Proof. induction x as [| d x IH]; [by destruct y | exact IH]. Qed.

Lemma append_assoc (x y z : string) : (x ++ y) ++ z = x ++ (y ++ z).
Proof.
  induction x as [| d x IH]; [done |]. rewrite !append_cons. by rewrite IH.
Qed.

Lemma length_append (x y : string) :
  String.length (x ++ y) = (String.length x + String.length y)%nat.
Proof.
  induction x as [| d x IH]; [done |]. rewrite append_cons.
  cbn [String.length]. by rewrite IH.
Qed.

Lemma endswith_split c a :
  Py.endswith c a = true → ∃ a', a = a' ++ String c "".
Proof.
  induction a as [| d a IH]; [discriminate |]. cbn [Py.endswith].
  destruct a as [| d' a].
  - intros H. apply Ascii.eqb_eq in H as ->. by exists "".
  - intros H. destruct (IH H) as (a' & ->). by exists (String d a').
Qed.

(** The extension that [splitext] returns holds no separator. *)
Lemma splitext_ext_no_sep p : occurs OsPath.sep (snd (OsPath.splitext p)) = false.
Proof.
  unfold OsPath.splitext.
  destruct (Z.ltb_spec (Py.rfind OsPath.sep p) (Py.rfind OsPath.extsep p))
    as [Hlt | _]; [| reflexivity].
  destruct (OsPath.has_stem _ _ _ _); [| reflexivity]. cbn [andb snd].
  assert (H0 : -1 ≤ Py.rfind OsPath.sep p)
    by (apply rfind_from_lower_bound; lia).
  apply (rfind_from_beyond OsPath.sep p 0 (-1)); [lia |].
  fold (Py.rfind OsPath.sep p). lia.
Qed.

Lemma ext_of_no_sep f : occurs OsPath.sep (ext_of f) = false.
Proof. unfold ext_of. rewrite occurs_sep_lower. apply splitext_ext_no_sep. Qed.

Lemma take_drop n s : Py.take n s ++ Py.drop n s = s.
Proof.
  revert s. induction n as [| n IH]; intros s; [reflexivity |].
  destruct s as [| d s]; [reflexivity |]. cbn [Py.take Py.drop].
  rewrite append_cons. by rewrite IH.
Qed.

(** [root + ext == p], as the Python documentation states. *)
Lemma splitext_append p :
  fst (OsPath.splitext p) ++ snd (OsPath.splitext p) = p.
Proof.
  unfold OsPath.splitext. destruct (_ && _)%bool; cbn [fst snd].
  - apply take_drop.
  - induction p as [| d p IH]; [reflexivity |]. rewrite append_cons.
    by rewrite IH.
Qed.

Lemma rfind_from_found c s : ∀ i best,
  best < i →
  Py.rfind_from c s i best = best
  ∨ (i ≤ Py.rfind_from c s i best
     ∧ Py.startswith c (Py.drop (Z.to_nat (Py.rfind_from c s i best - i)) s)
       = true).
Proof.
  induction s as [| d s IH]; intros i best Hlt; [by left |].
  cbn [Py.rfind_from].
  destruct (IH (i + 1) (if Ascii.eqb d c then i else best)) as [Hr | [Hge Hst]].
  - destruct (Ascii.eqb d c); lia.
  - rewrite Hr. destruct (Ascii.eqb d c) eqn:Hd; [right | by left].
    split; [lia |]. by rewrite Z.sub_diag.
  - right. split; [lia |].
    replace (Z.to_nat (Py.rfind_from c s (i + 1)
                         (if Ascii.eqb d c then i else best) - i))
      with (S (Z.to_nat (Py.rfind_from c s (i + 1)
                           (if Ascii.eqb d c then i else best) - (i + 1))))
      by lia.
    exact Hst.
Qed.

(** The extension is empty or starts with a dot. *)
Lemma splitext_ext_dot p :
  snd (OsPath.splitext p) = ""
  ∨ Py.startswith OsPath.extsep (snd (OsPath.splitext p)) = true.
Proof.
  unfold OsPath.splitext.
  destruct (Z.ltb_spec (Py.rfind OsPath.sep p) (Py.rfind OsPath.extsep p))
    as [Hlt | _]; [| by left].
  destruct (OsPath.has_stem _ _ _ _); [| by left]. cbn [andb snd]. right.
  assert (H0 : -1 ≤ Py.rfind OsPath.sep p)
    by (apply rfind_from_lower_bound; lia).
  destruct (rfind_from_found OsPath.extsep p 0 (-1)) as [Hr | [_ Hst]]; [lia | |].
  - fold (Py.rfind OsPath.extsep p) in Hr. lia.
  - fold (Py.rfind OsPath.extsep p) in Hst. by rewrite Z.sub_0_r in Hst.
Qed.

(** [basename(join(a, b)) = b] when [b] holds no separator. *)
Lemma basename_join a b :
  occurs OsPath.sep b = false → OsPath.basename (OsPath.join a b) = b.
Proof.
  intros Hb. unfold OsPath.join.
  assert (Hs : Py.startswith OsPath.sep b = false).
  { destruct b as [| d b]; [reflexivity |]. cbn in Hb |- *.
    by destruct (Ascii.eqb d OsPath.sep). }
  rewrite Hs. unfold OsPath.basename, Py.rfind.
  destruct (String.eqb_spec a "") as [-> | Ha]; cbn [orb].
  - cbn [String.append]. by rewrite rfind_from_absent.
  - destruct (Py.endswith OsPath.sep a) eqn:He.
    + apply endswith_split in He as (a' & ->).
      rewrite rfind_from_app, (rfind_from_absent _ b) by done.
      rewrite rfind_from_app. cbn [Py.rfind_from]. rewrite Ascii.eqb_refl.
      replace (Z.to_nat (0 + Z.of_nat (String.length a') + 1))
        with (String.length (a' ++ String OsPath.sep "")).
      * apply drop_app_length.
      * rewrite length_append. cbn. lia.
    + rewrite <- append_assoc.
      rewrite rfind_from_app, (rfind_from_absent _ b) by done.
      rewrite rfind_from_app. cbn [Py.rfind_from]. rewrite Ascii.eqb_refl.
      replace (Z.to_nat (0 + Z.of_nat (String.length a) + 1))
        with (String.length (a ++ String OsPath.sep "")).
      * apply drop_app_length.
      * rewrite length_append. cbn. lia.
Qed.

(** ** Run equations: what each step evaluates to *)

Ltac run_step :=
  cbv [bind ret raise try_ get_state modify emit save run_process json_dump
       new_WhisperModel transcribe result_of state_of calls_of print];
  cbn [fst snd app].

Section Runs.

Variable cfg : Config.
Variable world : Oracle.

Lemma get_model_set s m :
  _model s = Some m → get_model cfg world s = (inr m, s, []).
Proof. intros H. unfold get_model. run_step. rewrite H. reflexivity. Qed.

Lemma get_model_unset_ok s i :
  _model s = None → WhisperModel_new world = inr i →
  get_model cfg world s
  = (inr (built_model cfg i), set_model (Some (built_model cfg i)) s,
     [EvWhisperModel (MODEL_SIZE cfg) (device_arg cfg) (compute_arg cfg) (inr i)]).
Proof.
  intros H Hi. unfold get_model. run_step. rewrite H. rewrite Hi. reflexivity.
Qed.

Lemma get_model_unset_raises s e :
  _model s = None → WhisperModel_new world = inl e →
  get_model cfg world s
  = (inl e, s,
     [EvWhisperModel (MODEL_SIZE cfg) (device_arg cfg) (compute_arg cfg) (inl e)]).
Proof.
  intros H He. unfold get_model. run_step. rewrite H. rewrite He. reflexivity.
Qed.

Lemma ffmpeg_extract_audio_run src out s :
  ffmpeg_extract_audio world src out s
  = (ffmpeg_result world, ffmpeg_state world out s,
     [EvSubprocess (ffmpeg_cmd src out)]).
Proof.
  unfold ffmpeg_extract_audio, ffmpeg_result, ffmpeg_state. run_step.
  destruct (subprocess_run world) as [msg | rc err [b|]]; cbn [fst snd app];
    try reflexivity; destruct (negb (rc =? 0)); reflexivity.
Qed.

End Runs.

Section UploadRuns.

Variable cfg : Config.
Variable world : Oracle.

(** [get_model] never touches the disk, and answers from [_model]
    alone. *)
Lemma get_model_cases s :
  (∃ m, _model s = Some m ∧ get_model cfg world s = (inr m, s, []))
  ∨ (∃ i, _model s = None ∧ WhisperModel_new world = inr i
        ∧ get_model cfg world s
          = (inr (built_model cfg i), set_model (Some (built_model cfg i)) s,
             [EvWhisperModel (MODEL_SIZE cfg) (device_arg cfg) (compute_arg cfg)
                (inr i)]))
  ∨ (∃ e, _model s = None ∧ WhisperModel_new world = inl e
        ∧ get_model cfg world s
          = (inl e, s,
             [EvWhisperModel (MODEL_SIZE cfg) (device_arg cfg) (compute_arg cfg)
                (inl e)])).
Proof.
  destruct (_model s) as [m|] eqn:Hm.
  - left. exists m. split; [reflexivity | by apply get_model_set].
  - destruct (WhisperModel_new world) as [e|i] eqn:Hn.
    + right. right. exists e. repeat split; try done.
      by apply get_model_unset_raises.
    + right. left. exists i. repeat split; try done.
      by apply get_model_unset_ok.
Qed.

Lemma get_model_fs s : fs (state_of (get_model cfg world s)) = fs s.
Proof.
  destruct (get_model_cases s) as [(m & _ & ->) | [(i & _ & _ & ->) | (e & _ & _ & ->)]];
    reflexivity.
Qed.

Lemma upload_transcribe_model_raises f audio language task s e :
  result_of (get_model cfg world s) = inl e →
  upload_transcribe cfg world f (uuid4 world) audio language task s
  = (inr (error_500 "transcription failed" e),
     state_of (get_model cfg world s), calls_of (get_model cfg world s)).
Proof.
  unfold upload_transcribe. run_step.
  destruct (get_model cfg world s) as [[r s1] t1]. cbn [fst snd].
  intros ->. by rewrite app_nil_r.
Qed.

Lemma upload_transcribe_raises f audio language task s m e :
  result_of (get_model cfg world s) = inr m →
  model_transcribe world = inl e →
  upload_transcribe cfg world f (uuid4 world) audio language task s
  = (inr (error_500 "transcription failed" e),
     state_of (get_model cfg world s),
     (calls_of (get_model cfg world s)
        ++ [EvTranscribe m audio language task])%list).
Proof.
  unfold upload_transcribe. run_step.
  destruct (get_model cfg world s) as [[r s1] t1]. cbn [fst snd].
  intros -> ->. cbn [fst snd app]. by rewrite ?app_nil_r.
Qed.

Lemma upload_transcribe_ok f audio language task s m segments info :
  result_of (get_model cfg world s) = inr m →
  model_transcribe world = inr (segments, info) →
  let segs := map seg_dict segments in
  let result :=
    build_result cfg f info segs (full_text_of segs) audio language task in
  upload_transcribe cfg world f (uuid4 world) audio language task s
  = (inr (jsonify (JDict [("job_id", JStr (uuid4 world));
                          ("status", JStr "done"); ("result", result)]) 200),
     write_file (out_path cfg world) (JsonText result)
       (state_of (get_model cfg world s)),
     (calls_of (get_model cfg world s)
        ++ [EvTranscribe m audio language task;
            EvJsonDump (out_path cfg world)])%list).
Proof.
  unfold upload_transcribe. run_step.
  destruct (get_model cfg world s) as [[r s1] t1]. cbn [fst snd].
  intros -> ->. cbn [fst snd app]. by rewrite ?app_nil_r.
Qed.

Lemma upload_no_file request s :
  files_file request = None →
  upload cfg world request s
  = (inr (jsonify (JDict [("error", JStr "file is required")]) 400), s, []).
Proof. intros H. unfold upload. rewrite H. reflexivity. Qed.

Lemma upload_empty_filename request f s :
  files_file request = Some f → FileStorage_bool f = false →
  upload cfg world request s
  = (inr (jsonify (JDict [("error", JStr "file is required")]) 400), s, []).
Proof. intros H Hb. unfold upload. rewrite H, Hb. reflexivity. Qed.

Lemma upload_bad_extension request f s :
  files_file request = Some f → FileStorage_bool f = true →
  ext_of f ∉ ALLOWED_EXT cfg →
  upload cfg world request s
  = (inr (jsonify
            (JDict [("error", JStr ("extension " ++ ext_of f ++ " not allowed"))])
            400), s, []).
Proof.
  intros H Hb Hx. unfold upload. rewrite H, Hb. cbn [negb].
  rewrite bool_decide_eq_false_2 by exact Hx. reflexivity.
Qed.

Lemma upload_video_ffmpeg_raises request f s e :
  accepted cfg request f → is_video (ext_of f) = true →
  ffmpeg_result world = inl e →
  upload cfg world request s
  = (inr (error_500 "audio extraction failed" e),
     ffmpeg_state world (wav_path cfg world) (saved cfg world f s),
     [EvSave (src_path_of cfg world f);
      EvSubprocess (ffmpeg_cmd (src_path_of cfg world f) (wav_path cfg world))]).
Proof.
  intros (H & Hb & Hx) Hv He. unfold upload. rewrite H, Hb. cbn [negb].
  rewrite bool_decide_eq_true_2 by exact Hx. cbn [negb]. rewrite Hv.
  unfold bind at 1. unfold save at 1. run_step.
  rewrite ffmpeg_extract_audio_run. rewrite He. reflexivity.
Qed.

Lemma upload_video_ffmpeg_ok request f s :
  accepted cfg request f → is_video (ext_of f) = true →
  ffmpeg_result world = inr tt →
  let r := upload_transcribe cfg world f (uuid4 world) (wav_path cfg world)
             (language_of request) (task_of request)
             (ffmpeg_state world (wav_path cfg world) (saved cfg world f s)) in
  upload cfg world request s
  = (result_of r, state_of r,
     EvSave (src_path_of cfg world f)
       :: EvSubprocess (ffmpeg_cmd (src_path_of cfg world f) (wav_path cfg world))
       :: calls_of r).
Proof.
  intros (H & Hb & Hx) Hv He. unfold upload. rewrite H, Hb. cbn [negb].
  rewrite bool_decide_eq_true_2 by exact Hx. cbn [negb]. rewrite Hv.
  unfold bind at 1. unfold save at 1. run_step.
  rewrite ffmpeg_extract_audio_run. rewrite He. cbn [fst snd app].
  fold (saved cfg world f s).
  destruct (upload_transcribe _ _ _ _ _ _ _ _) as [[r1 s1] t1]. reflexivity.
Qed.

Lemma upload_audio request f s :
  accepted cfg request f → is_video (ext_of f) = false →
  let r := upload_transcribe cfg world f (uuid4 world) (src_path_of cfg world f)
             (language_of request) (task_of request) (saved cfg world f s) in
  upload cfg world request s
  = (result_of r, state_of r, EvSave (src_path_of cfg world f) :: calls_of r).
Proof.
  intros (H & Hb & Hx) Hv. unfold upload. rewrite H, Hb. cbn [negb].
  rewrite bool_decide_eq_true_2 by exact Hx. cbn [negb]. rewrite Hv.
  unfold bind at 1. unfold save at 1. run_step.
  fold (saved cfg world f s).
  destruct (upload_transcribe _ _ _ _ _ _ _ _) as [[r1 s1] t1]. reflexivity.
Qed.

End UploadRuns.

(** ** Every run of [upload] is one of the five outcomes *)

Lemma upload_outcome cfg world request s :
  Outcome cfg world request s (upload cfg world request s).
Proof.
  destruct (files_file request) as [f|] eqn:Hf.
  2:{ rewrite upload_no_file by done. constructor. by left. }
  destruct (FileStorage_bool f) eqn:Hb.
  2:{ rewrite (upload_empty_filename _ _ _ f) by done. constructor.
      right. exists f. split; [done | by left]. }
  destruct (decide (ext_of f ∈ ALLOWED_EXT cfg)) as [Hx | Hx].
  2:{ rewrite (upload_bad_extension _ _ _ f) by done. constructor.
      right. exists f. split; [done | by right]. }
  assert (Hacc : accepted cfg request f) by done.
  destruct (is_video (ext_of f)) eqn:Hv.
  - destruct (ffmpeg_result world) as [e | []] eqn:He.
    + rewrite (upload_video_ffmpeg_raises _ _ _ f _ e) by done.
      replace (ffmpeg_state world (wav_path cfg world) (saved cfg world f s))
        with (pre_model_state cfg world f s)
        by (unfold pre_model_state; by rewrite Hv).
      replace [EvSave (src_path_of cfg world f);
               EvSubprocess (ffmpeg_cmd (src_path_of cfg world f) (wav_path cfg world))]
        with (pre_model_calls cfg world f)
        by (unfold pre_model_calls; by rewrite Hv).
      by eapply ExtractionFailed.
    + rewrite (upload_video_ffmpeg_ok _ _ _ f) by done. cbv zeta.
      assert (Hs : ffmpeg_state world (wav_path cfg world) (saved cfg world f s)
                   = pre_model_state cfg world f s)
        by (unfold pre_model_state; by rewrite Hv).
      assert (Ha : wav_path cfg world = audio_path_of cfg world f)
        by (unfold audio_path_of; by rewrite Hv).
      assert (Hp : ∀ t,
                 EvSave (src_path_of cfg world f)
                   :: EvSubprocess
                        (ffmpeg_cmd (src_path_of cfg world f) (wav_path cfg world))
                   :: t
                 = (pre_model_calls cfg world f ++ t)%list)
        by (intros t; unfold pre_model_calls; by rewrite Hv).
      rewrite Hs.
      destruct (result_of (get_model cfg world (pre_model_state cfg world f s)))
        as [e | m] eqn:Hg.
      * rewrite (upload_transcribe_model_raises _ _ _ _ _ _ _ e) by done.
        unfold result_of, state_of, calls_of; cbn [fst snd].
        rewrite Hp.
        by eapply ModelUnavailable.
      * destruct (model_transcribe world) as [e | [segments info]] eqn:Ht.
        -- rewrite (upload_transcribe_raises _ _ _ _ _ _ _ m e) by done.
           unfold result_of, state_of, calls_of; cbn [fst snd].
           rewrite Hp.
           rewrite Ha. by eapply TranscriptionFailed.
        -- rewrite (upload_transcribe_ok _ _ _ _ _ _ _ m segments info) by done.
           unfold result_of, state_of, calls_of; cbn [fst snd].
           rewrite Hp.
           rewrite Ha. by eapply Done.
  - rewrite (upload_audio _ _ _ f) by done. cbv zeta.
    assert (Hs : saved cfg world f s = pre_model_state cfg world f s)
      by (unfold pre_model_state; by rewrite Hv).
    assert (Ha : src_path_of cfg world f = audio_path_of cfg world f)
      by (unfold audio_path_of; by rewrite Hv).
    assert (Hp : ∀ t, EvSave (src_path_of cfg world f) :: t
                      = (pre_model_calls cfg world f ++ t)%list)
      by (intros t; unfold pre_model_calls; by rewrite Hv).
    rewrite Hs, Hp, Ha.
    destruct (result_of (get_model cfg world (pre_model_state cfg world f s)))
      as [e | m] eqn:Hg.
    + rewrite (upload_transcribe_model_raises _ _ _ _ _ _ _ e) by done.
      unfold result_of, state_of, calls_of; cbn [fst snd].
      by eapply ModelUnavailable; [| rewrite Hv |].
    + destruct (model_transcribe world) as [e | [segments info]] eqn:Ht.
      * rewrite (upload_transcribe_raises _ _ _ _ _ _ _ m e) by done.
        unfold result_of, state_of, calls_of; cbn [fst snd].
        by eapply TranscriptionFailed; [| rewrite Hv | |].
      * rewrite (upload_transcribe_ok _ _ _ _ _ _ _ m segments info) by done.
        unfold result_of, state_of, calls_of; cbn [fst snd].
        by eapply Done; [| rewrite Hv | |].
Qed.

(** ** Validation *)



(** C9: a request without a "file" part is answered with status 400
    and the body [{"error": "file is required"}]; nothing is saved or
    written: the handler makes no call and the state, the disk
    included, is unchanged. *)
Theorem upload_requires_file cfg world request s :
  files_file request = None →
  let r := upload cfg world request s in
  result_of r
  = inr {| status := 400; body := JDict [("error", JStr "file is required")] |}
  ∧ calls_of r = []
  ∧ fs (state_of r) = fs s
  ∧ state_of r = s.
Proof.
  intros Hf r. subst r. rewrite upload_no_file by exact Hf.
  unfold result_of, state_of, calls_of; cbn [fst snd]. done.
Qed.

Lemma upload_requires_file_witness :
  files_file empty_request = None
  ∧ upload default_config world_ok empty_request fresh_state
    = (inr (jsonify (JDict [("error", JStr "file is required")]) 400),
       fresh_state, []).
Proof.
  split; [reflexivity |].
  destruct (upload_requires_file default_config world_ok empty_request fresh_state
              eq_refl) as (Hr & Hc & _ & Hs).
  destruct (upload default_config world_ok empty_request fresh_state) as [[r s] t].
  unfold result_of, state_of, calls_of in *; cbn [fst snd] in *.
  by subst.
Defined.

(** ** Responses *)

(** [upload] never lets an exception escape: it always returns a
    response. *)
Lemma upload_returns cfg world request s :
  ∃ resp, result_of (upload cfg world request s) = inr resp.
Proof. destruct (upload_outcome cfg world request s); eexists; reflexivity. Qed.



(** ** Failures of the collaborators *)

Lemma write_file_model p d s : _model (write_file p d s) = _model s.
Proof. reflexivity. Qed.

Lemma ffmpeg_state_model world out s : _model (ffmpeg_state world out s) = _model s.
Proof.
  unfold ffmpeg_state. by destruct (subprocess_run world) as [? | ? ? [?|]].
Qed.

Lemma pre_model_state_model cfg world f s :
  _model (pre_model_state cfg world f s) = _model s.
Proof.
  unfold pre_model_state, saved. destruct (is_video _);
    by rewrite ?ffmpeg_state_model, ?write_file_model.
Qed.

(** [get_model] answers from [_model] and the constructor alone. *)
Lemma get_model_depends_on_model cfg world s1 s2 :
  _model s1 = _model s2 →
  result_of (get_model cfg world s1) = result_of (get_model cfg world s2)
  ∧ calls_of (get_model cfg world s1) = calls_of (get_model cfg world s2)
  ∧ _model (state_of (get_model cfg world s1))
    = _model (state_of (get_model cfg world s2)).
Proof.
  intros H.
  destruct (get_model_cases cfg world s1)
    as [(m & Hm & ->) | [(i & Hm & Hi & ->) | (e & Hm & He & ->)]].
  - rewrite (get_model_set cfg world s2 m) by congruence. done.
  - rewrite (get_model_unset_ok cfg world s2 i) by congruence. done.
  - rewrite (get_model_unset_raises cfg world s2 e) by congruence.
    unfold result_of, state_of, calls_of; cbn [fst snd]. done.
Qed.

Lemma get_model_pre cfg world f s :
  result_of (get_model cfg world (pre_model_state cfg world f s))
  = result_of (get_model cfg world s).
Proof. apply get_model_depends_on_model, pre_model_state_model. Qed.

Lemma ffmpeg_step_result cfg world f s :
  result_of (ffmpeg_step cfg world f s) = ffmpeg_result world.
Proof. unfold ffmpeg_step. by rewrite ffmpeg_extract_audio_run. Qed.

(** The model step raises exactly when the handle cannot be obtained
    or the transcription raises. *)
Lemma model_step_raises cfg world audio language task s e :
  result_of (model_step cfg world audio language task s) = inl e
  ↔ result_of (get_model cfg world s) = inl e
    ∨ (∃ m, result_of (get_model cfg world s) = inr m
            ∧ model_transcribe world = inl e).
Proof.
  unfold model_step. run_step.
  destruct (get_model cfg world s) as [[[e0 | m] s1] t1]; cbn [fst snd].
  - split; [intros H; left; congruence | intros [H | (m & H & _)]; congruence].
  - destruct (model_transcribe world) as [e1 | r]; cbn [fst snd]; split.
    + intros H. right. exists m. split; congruence.
    + intros [H | (m' & _ & H)]; congruence.
    + discriminate.
    + intros [H | (m' & _ & H)]; congruence.
Qed.

(** A non-zero return code of ffmpeg is raised as
    ["ffmpeg failed: "] followed by the first 500 characters of its
    stderr. *)
Lemma ffmpeg_nonzero_raises world src out s rc err w :
  subprocess_run world = Completed rc err w → rc ≠ 0 →
  result_of (ffmpeg_extract_audio world src out s)
  = inl ("ffmpeg failed: " ++ Py.take 500 err).
Proof.
  intros H Hrc. rewrite ffmpeg_extract_audio_run.
  unfold result_of, ffmpeg_result; cbn [fst]. rewrite H.
  destruct (Z.eqb_spec rc 0); [done | reflexivity].
Qed.

Lemma accepted_unique cfg request f f' :
  accepted cfg request f → accepted cfg request f' → f' = f.
Proof. intros (H & _) (H' & _). congruence. Qed.

Lemma accepted_not_rejected cfg request f :
  accepted cfg request f →
  ¬ (files_file request = None
     ∨ ∃ f0, files_file request = Some f0
             ∧ (FileStorage_bool f0 = false ∨ ext_of f0 ∉ ALLOWED_EXT cfg)).
Proof.
  intros (Hf & Hb & Hx) [Hn | (f0 & Hf0 & [Hb0 | Hx0])]; congruence.
Qed.

Lemma pre_model_calls_no_model cfg world f ev :
  ev ∈ pre_model_calls cfg world f → is_model_call ev = false.
Proof.
  unfold pre_model_calls. destruct (is_video _); intros H;
    repeat (apply elem_of_cons in H as [-> | H]; [reflexivity |]);
    by apply elem_of_nil in H.
Qed.

(** C2: for an accepted upload, a failure raised by the ffmpeg step
    (the process cannot be started, or exits with a non-zero code)
    ends the request with status 500 and the body
    [{"error": "audio extraction failed", "detail": str(e)}], and no
    call to the model is made; a failure raised by the model step
    (loading the model or transcribing) ends it with status 500 and
    [{"error": "transcription failed", "detail": str(e)}]. *)
Theorem upload_reports_first_failure cfg world request f s :
  accepted cfg request f →
  let r := upload cfg world request s in
  (∀ e, is_video (ext_of f) = true →
        result_of (ffmpeg_step cfg world f s) = inl e →
        result_of r
        = inr {| status := 500;
                 body := JDict [("error", JStr "audio extraction failed");
                                ("detail", JStr e)] |}
        ∧ (∀ ev, ev ∈ calls_of r → is_model_call ev = false))
  ∧ (∀ e, (is_video (ext_of f) = true →
           result_of (ffmpeg_step cfg world f s) = inr tt) →
          result_of (model_step cfg world (audio_path_of cfg world f)
                       (language_of request) (task_of request)
                       (pre_model_state cfg world f s)) = inl e →
          result_of r
          = inr {| status := 500;
                   body := JDict [("error", JStr "transcription failed");
                                  ("detail", JStr e)] |}).
Proof.
  intros Hacc r. subst r. split.
  - intros e Hv He. rewrite ffmpeg_step_result in He.
    pose proof (upload_outcome cfg world request s) as Ho.
    inversion Ho as [msg Hrej | f' e' Hacc' Hv' He' | f' e' Hacc' Hff Hg
                    | f' m' e' Hacc' Hff Hg Ht | f' m' sg inf Hacc' Hff Hg Ht];
      try (exfalso; by eapply accepted_not_rejected);
      pose proof (accepted_unique _ _ _ _ Hacc Hacc') as ->;
      try (rewrite (Hff Hv) in He; discriminate).
    unfold result_of, calls_of; cbn [fst snd]. split.
    + rewrite He in He'. by injection He' as ->.
    + apply pre_model_calls_no_model.
  - intros e Hff Hm. apply model_step_raises in Hm.
    assert (Hff' : is_video (ext_of f) = true → ffmpeg_result world = inr tt)
      by (intros Hv; rewrite <- (ffmpeg_step_result cfg world f s); auto).
    pose proof (upload_outcome cfg world request s) as Ho.
    inversion Ho as [msg Hrej | f' e' Hacc' Hv' He' | f' e' Hacc' _ Hg
                    | f' m' e' Hacc' _ Hg Ht | f' m' sg inf Hacc' _ Hg Ht];
      try (exfalso; by eapply accepted_not_rejected);
      pose proof (accepted_unique _ _ _ _ Hacc Hacc') as ->.
    + rewrite (Hff' Hv') in He'. discriminate.
    + unfold result_of; cbn [fst].
      assert (e' = e) as -> by (destruct Hm as [Hm | (m & Hm & _)]; congruence).
      reflexivity.
    + unfold result_of; cbn [fst].
      assert (e' = e) as -> by (destruct Hm as [Hm | (m & Hm & Ht')]; congruence).
      reflexivity.
    + exfalso. destruct Hm as [Hm | (m & Hm & Ht')]; congruence.
Qed.

Lemma upload_reports_first_failure_witness :
  accepted default_config (request_of clip_mp4) clip_mp4
  ∧ result_of (upload default_config world_ffmpeg_fails (request_of clip_mp4)
                 fresh_state)
    = inr {| status := 500;
             body := JDict [("error", JStr "audio extraction failed");
                            ("detail", JStr "ffmpeg failed: Invalid data found")] |}
  ∧ accepted default_config (request_of talk_mp3) talk_mp3
  ∧ result_of (upload default_config world_model_fails (request_of talk_mp3)
                 fresh_state)
    = inr {| status := 500;
             body := JDict [("error", JStr "transcription failed");
                            ("detail", JStr "out of memory")] |}.
Proof.
  assert (H4 : accepted default_config (request_of clip_mp4) clip_mp4)
    by (repeat split; compute_done).
  assert (H3 : accepted default_config (request_of talk_mp3) talk_mp3)
    by (repeat split; compute_done).
  split; [exact H4 |]. split; [| split; [exact H3 |]].
  - apply (upload_reports_first_failure default_config world_ffmpeg_fails
             (request_of clip_mp4) clip_mp4 fresh_state H4);
      [compute_done | reflexivity].
  - apply (upload_reports_first_failure default_config world_model_fails
             (request_of talk_mp3) talk_mp3 fresh_state H3);
      [intros Hv; exfalso; revert Hv; compute_done | reflexivity].
Defined.

(** ** Routing of the audio *)

Lemma get_model_calls_constructor cfg world s ev :
  ev ∈ calls_of (get_model cfg world s) → is_constructor_call ev = true.
Proof.
  destruct (get_model_cases cfg world s)
    as [(m & _ & ->) | [(i & _ & _ & ->) | (e & _ & _ & ->)]];
    unfold calls_of; cbn [snd]; intros H.
  - by apply elem_of_nil in H.
  - apply list_elem_of_singleton in H as ->. reflexivity.
  - apply list_elem_of_singleton in H as ->. reflexivity.
Qed.

(** The calls of a run, outcome by outcome: the calls made before the
    [try] block, constructor calls, and at the end the transcription
    and the dump. *)
Lemma upload_calls_shape cfg world request f s :
  accepted cfg request f →
  ∃ tail,
    calls_of (upload cfg world request s)
    = (pre_model_calls cfg world f
         ++ calls_of (get_model cfg world (pre_model_state cfg world f s))
         ++ tail)%list
    ∨ (is_video (ext_of f) = true ∧ (∃ e, ffmpeg_result world = inl e)
       ∧ calls_of (upload cfg world request s) = pre_model_calls cfg world f).
Proof.
  intros Hacc. pose proof (upload_outcome cfg world request s) as Ho.
  inversion Ho as [msg Hrej | f' e' Hacc' Hv' He' | f' e' Hacc' _ Hg
                  | f' m' e' Hacc' _ Hg Ht | f' m' sg inf Hacc' _ Hg Ht];
    try (exfalso; by eapply accepted_not_rejected);
    pose proof (accepted_unique _ _ _ _ Hacc Hacc') as ->;
    unfold calls_of at 1; cbn [snd].
  - exists []. right. eauto.
  - exists []. left. by rewrite app_nil_r.
  - eexists. left. reflexivity.
  - eexists. left. reflexivity.
Qed.

(** Case analysis on the outcome of a run whose upload is known to be
    accepted: the rejected case goes, and the file of the outcome is
    the accepted one. *)
Ltac accepted_outcome Hacc :=
  match type of Hacc with
  | accepted ?cfg ?request ?f =>
      match goal with
      | |- context [upload cfg ?world request ?s] =>
          destruct (upload_outcome cfg world request s)
            as [msg Hrej | f' e' Hacc' Hv' He' | f' e' Hacc' Hff' Hg'
               | f' m' e' Hacc' Hff' Hg' Ht' | f' m' sg inf Hacc' Hff' Hg' Ht'];
          [ exfalso; exact (accepted_not_rejected _ _ _ Hacc Hrej) | .. ];
          pose proof (accepted_unique _ _ _ _ Hacc Hacc'); subst f'
      end
  end.

(** Whatever the outcome, a transcription call of the run is made on
    [audio_path_of]. *)
Lemma upload_transcribes_only_audio_path cfg world request f s m p language task :
  accepted cfg request f →
  EvTranscribe m p language task ∈ calls_of (upload cfg world request s) →
  p = audio_path_of cfg world f
  ∧ language = language_of request ∧ task = task_of request.
Proof.
  intros Hacc.
  assert (Hpre : EvTranscribe m p language task ∉ pre_model_calls cfg world f).
  { intros H. apply pre_model_calls_no_model in H. discriminate. }
  assert (Hget : ∀ s', EvTranscribe m p language task
                       ∉ calls_of (get_model cfg world s')).
  { intros s' H. apply get_model_calls_constructor in H. discriminate. }
  accepted_outcome Hacc; unfold calls_of at 1; cbn [snd];
    rewrite ?elem_of_app, ?elem_of_cons, ?elem_of_nil; intros Hin.
  - done.
  - destruct Hin as [Hin | Hin]; [done | by apply Hget in Hin].
  - destruct Hin as [Hin | [Hin | [Heq | []]]];
      [done | by apply Hget in Hin | by injection Heq as -> -> -> ->].
  - destruct Hin as [Hin | [Hin | [Heq | [Heq | []]]]];
      [done | by apply Hget in Hin | by injection Heq as -> -> -> -> | discriminate].
Qed.

Lemma clip_mp4_accepted : accepted default_config (request_of clip_mp4) clip_mp4.
Proof. repeat split; compute_done. Qed.

Lemma talk_mp3_accepted : accepted default_config (request_of talk_mp3) talk_mp3.
Proof. repeat split; compute_done. Qed.

Lemma clip_mp4_is_video : is_video (ext_of clip_mp4) = true.
Proof. compute_done. Qed.

Lemma talk_mp3_is_not_video : is_video (ext_of talk_mp3) = false.
Proof. compute_done. Qed.

(** C3 as stated fails: an accepted video upload whose conversion
    fails is never handed to the model. *)
Lemma failed_conversion_is_not_transcribed :
  ¬ every_accepted_upload_is_transcribed.
Proof.
  intros H.
  destruct (H default_config world_ffmpeg_fails (request_of clip_mp4) clip_mp4
              fresh_state clip_mp4_accepted) as [Hv _].
  destruct (Hv clip_mp4_is_video) as [_ (m & language & task & Hin)].
  vm_compute in Hin.
  repeat (apply elem_of_cons in Hin as [Heq | Hin]; [discriminate |]).
  by apply elem_of_nil in Hin.
Qed.

(** C3, amended: for an accepted video upload the handler saves the
    upload and then invokes
    [ffmpeg -y -i <src> -vn -ac 1 -ar 16000 <job_id>.wav], once; when
    that step succeeds and the model handle is obtained, the model is
    then run on the WAV path; the model is never run on another path.
    For an accepted upload that is not a video no conversion is
    invoked, and when the model handle is obtained the model is run
    on the saved upload path, and on no other. *)
Theorem upload_routes_audio cfg world request f s :
  accepted cfg request f →
  let t := calls_of (upload cfg world request s) in
  let src := src_path_of cfg world f in
  let wav := OsPath.join (UPLOAD_DIR cfg) (uuid4 world ++ ".wav") in
  (is_video (ext_of f) = true →
     (∃ rest,
        t = EvSave src
              :: EvSubprocess ["ffmpeg"; "-y"; "-i"; src; "-vn"; "-ac"; "1";
                               "-ar"; "16000"; wav]
              :: rest
        ∧ (∀ e, e ∈ rest → is_ffmpeg_call e = false)
        ∧ (∀ m, result_of (ffmpeg_step cfg world f s) = inr tt →
                result_of (get_model cfg world s) = inr m →
                EvTranscribe m wav (language_of request) (task_of request) ∈ rest))
     ∧ (∀ m p language task, EvTranscribe m p language task ∈ t → p = wav))
  ∧ (is_video (ext_of f) = false →
     (∀ e, e ∈ t → is_ffmpeg_call e = false)
     ∧ (∀ m, result_of (get_model cfg world s) = inr m →
             EvTranscribe m src (language_of request) (task_of request) ∈ t)
     ∧ (∀ m p language task, EvTranscribe m p language task ∈ t → p = src)).
Proof.
  intros Hacc. cbv zeta. fold (wav_path cfg world).
  assert (Hctor : ∀ s' e, e ∈ calls_of (get_model cfg world s') →
                          is_ffmpeg_call e = false).
  { intros s' e H. apply get_model_calls_constructor in H. by destruct e. }
  split; intros Hv.
  - split.
    2:{ intros m p language task Hin.
        apply (upload_transcribes_only_audio_path _ _ _ f) in Hin as (-> & _);
          [| done].
        unfold audio_path_of. by rewrite Hv. }
    setoid_rewrite ffmpeg_step_result.
    setoid_rewrite <- (get_model_pre cfg world f s).
    accepted_outcome Hacc; unfold calls_of at 1; cbn [snd];
      unfold pre_model_calls, audio_path_of; rewrite Hv; cbn [app];
      eexists; (split; [reflexivity |]); split.
    + intros e Hin. by apply elem_of_nil in Hin.
    + intros m H. congruence.
    + intros e Hin. by eapply Hctor.
    + intros m H1 H2. congruence.
    + intros e. rewrite elem_of_app, list_elem_of_singleton.
      intros [Hin | ->]; [by eapply Hctor | done].
    + intros m H1 H2. assert (m' = m) as -> by congruence.
      rewrite elem_of_app, list_elem_of_singleton. by right.
    + intros e. rewrite elem_of_app, !elem_of_cons, elem_of_nil.
      intros [Hin | [-> | [-> | []]]]; [by eapply Hctor | done | done].
    + intros m H1 H2. assert (m' = m) as -> by congruence.
      rewrite elem_of_app, !elem_of_cons. right. by left.
  - split; [| split].
    3:{ intros m p language task Hin.
        apply (upload_transcribes_only_audio_path _ _ _ f) in Hin as (-> & _);
          [| done].
        unfold audio_path_of. by rewrite Hv. }
    + accepted_outcome Hacc; try congruence; unfold calls_of at 1; cbn [snd];
        unfold pre_model_calls; rewrite Hv; cbn [app]; intros e;
        rewrite ?elem_of_cons, ?elem_of_app, ?elem_of_cons, ?elem_of_nil.
      * intros [-> | Hin]; [done | by eapply Hctor].
      * intros [-> | [Hin | [-> | []]]]; [done | by eapply Hctor | done].
      * intros [-> | [Hin | [-> | [-> | []]]]];
          [done | by eapply Hctor | done | done].
    + setoid_rewrite <- (get_model_pre cfg world f s).
      accepted_outcome Hacc; try congruence; unfold calls_of at 1; cbn [snd];
        unfold pre_model_calls, audio_path_of; rewrite Hv; cbn [app];
        intros m H; try congruence.
      all: assert (m' = m) as -> by congruence.
      all: rewrite elem_of_cons, elem_of_app, !elem_of_cons.
      all: right; right; by left.
Qed.

Lemma upload_routes_audio_witness :
  accepted default_config (request_of clip_mp4) clip_mp4
  ∧ is_video (ext_of clip_mp4) = true
  ∧ EvTranscribe (built_model default_config 1) "uploads/1b4e28ba.wav" None
      "transcribe"
    ∈ calls_of (upload default_config world_ok (request_of clip_mp4) fresh_state)
  ∧ accepted default_config (request_of talk_mp3) talk_mp3
  ∧ is_video (ext_of talk_mp3) = false
  ∧ EvTranscribe (built_model default_config 1) "uploads/1b4e28ba.mp3" None
      "transcribe"
    ∈ calls_of (upload default_config world_ok (request_of talk_mp3) fresh_state).
Proof.
  split; [exact clip_mp4_accepted |]. split; [exact clip_mp4_is_video |].
  split; [| split; [exact talk_mp3_accepted |];
            split; [exact talk_mp3_is_not_video |]].
  - destruct (upload_routes_audio default_config world_ok (request_of clip_mp4)
                clip_mp4 fresh_state clip_mp4_accepted) as [Hv _].
    destruct (Hv clip_mp4_is_video) as [(rest & Ht & _ & Hrun) _].
    rewrite Ht. do 2 apply list_elem_of_further.
    apply (Hrun (built_model default_config 1)); reflexivity.
  - destruct (upload_routes_audio default_config world_ok (request_of talk_mp3)
                talk_mp3 fresh_state talk_mp3_accepted) as [_ Ha].
    destruct (Ha talk_mp3_is_not_video) as (_ & Hrun & _).
    apply (Hrun (built_model default_config 1)); reflexivity.
Defined.

(** ** Successful requests *)

(** A response with status 200 comes from the [Done] outcome only. *)
Lemma upload_success cfg world request s resp :
  result_of (upload cfg world request s) = inr resp →
  status resp = 200 →
  ∃ f m segments info,
    accepted cfg request f
    ∧ (is_video (ext_of f) = true → ffmpeg_result world = inr tt)
    ∧ result_of (get_model cfg world (pre_model_state cfg world f s)) = inr m
    ∧ model_transcribe world = inr (segments, info)
    ∧ upload cfg world request s
      = (inr (jsonify
                (JDict [("job_id", JStr (uuid4 world)); ("status", JStr "done");
                        ("result", result_for cfg world request f segments info)])
                200),
         write_file (out_path cfg world)
           (JsonText (result_for cfg world request f segments info))
           (state_of (get_model cfg world (pre_model_state cfg world f s))),
         (pre_model_calls cfg world f
            ++ calls_of (get_model cfg world (pre_model_state cfg world f s))
            ++ [EvTranscribe m (audio_path_of cfg world f)
                  (language_of request) (task_of request);
                EvJsonDump (out_path cfg world)])%list).
Proof.
  destruct (upload_outcome cfg world request s)
    as [msg Hrej | f e Hacc Hv He | f e Hacc Hff Hg
       | f m e Hacc Hff Hg Ht | f m sg inf Hacc Hff Hg Ht];
    unfold result_of; cbn [fst]; intros [= <-]; cbn [status jsonify error_500];
    try discriminate.
  intros _. by exists f, m, sg, inf.
Qed.


Lemma text_of_seg_dict s : text_of (seg_dict s) = seg_text s.
Proof. reflexivity. Qed.


(** The text of the result, from the segments the model returned. *)
Lemma full_text_of_segments segments :
  full_text_of (map seg_dict segments)
  = Py.join " " (map (λ s, Py.strip (seg_text s)) segments).
Proof.
  unfold full_text_of. f_equal. rewrite map_map. reflexivity.
Qed.



(** The base name recorded under "audio_path" is the job id followed
    by [.wav] for a video and by the extension of the upload
    otherwise, for a job id without a separator, as a UUID is. *)
Lemma audio_path_basename cfg world f :
  occurs OsPath.sep (uuid4 world) = false →
  OsPath.basename (audio_path_of cfg world f)
  = uuid4 world ++ (if is_video (ext_of f) then ".wav" else ext_of f).
Proof.
  intros Hj. unfold audio_path_of, wav_path, src_path_of.
  destruct (is_video (ext_of f)); apply basename_join;
    rewrite occurs_app, Hj; [reflexivity | apply ext_of_no_sep].
Qed.



(** The command-line entry prints the same text: for a file that is
    not a video, with the model answering, the last line printed is
    the stripped segment texts joined by a space. *)
Lemma transcribe_file_prints_text cfg world file_path s m segments info :
  is_video (Py.lower (snd (OsPath.splitext file_path))) = false →
  result_of (get_model cfg world s) = inr m →
  model_transcribe world = inr (segments, info) →
  calls_of (transcribe_file cfg world file_path s)
  = (calls_of (get_model cfg world s)
       ++ [EvTranscribe m file_path None "transcribe";
           EvPrint (nl ++ "Transcription result:" ++ nl);
           EvPrint (Py.join " " (map (λ sg, Py.strip (seg_text sg)) segments))])%list.
Proof.
  intros Hv Hg Ht. unfold transcribe_file. rewrite Hv.
  unfold cli_transcribe. run_step.
  destruct (get_model cfg world s) as [[r s1] t1].
  unfold result_of, calls_of in *; cbn [fst snd] in *.
  subst r. rewrite Ht. cbn [fst snd app].
  rewrite full_text_of_segments. by rewrite !app_nil_r.
Qed.

(** C10: after a successful request, the file
    [RESULT_DIR/<job_id>.json] holds the JSON document that is the
    "result" object of the response body. *)
Theorem upload_persists_result cfg world request s resp :
  result_of (upload cfg world request s) = inr resp →
  status resp = 200 →
  ∃ result,
    body resp = JDict [("job_id", JStr (uuid4 world)); ("status", JStr "done");
                       ("result", result)]
    ∧ fs (state_of (upload cfg world request s))
        !! OsPath.join (RESULT_DIR cfg) (uuid4 world ++ ".json")
      = Some (JsonText result)
    ∧ EvJsonDump (OsPath.join (RESULT_DIR cfg) (uuid4 world ++ ".json"))
      ∈ calls_of (upload cfg world request s).
Proof.
  intros Hr Hst.
  destruct (upload_success _ _ _ _ _ Hr Hst)
    as (f & m & segments & info & Hacc & _ & _ & Ht & Hrun).
  rewrite Hrun in Hr |- *. unfold result_of in Hr; cbn [fst] in Hr.
  injection Hr as <-.
  exists (result_for cfg world request f segments info).
  split; [reflexivity |]. split.
  - unfold state_of at 1; cbn [fst snd]. unfold write_file; cbn [fs].
    apply lookup_insert_eq.
  - unfold calls_of at 1; cbn [snd]. rewrite !elem_of_app, !elem_of_cons.
    right. right. right. by left.
Qed.

Lemma upload_persists_result_witness :
  ∃ resp,
    result_of (upload default_config world_ok (request_of talk_mp3) fresh_state)
    = inr resp
    ∧ status resp = 200
    ∧ ∃ result,
        dict_get "result" (body resp) = Some result
        ∧ fs (state_of (upload default_config world_ok (request_of talk_mp3)
                          fresh_state))
            !! "results/1b4e28ba.json"
          = Some (JsonText result).
Proof.
  eexists. split; [reflexivity |]. split; [reflexivity |].
  destruct (upload_persists_result default_config world_ok
              (request_of talk_mp3) fresh_state _ eq_refl eq_refl)
    as (result & Hbody & Hfile & _).
  exists result. split; [| exact Hfile].
  injection Hbody as <-. reflexivity.
Defined.

(** ** What a request leaves on disk *)

Lemma append_inv_head (a x y : string) : a ++ x = a ++ y → x = y.
Proof.
  induction a as [| c a IH]; cbn; [done |]. intros [= H]. by apply IH.
Qed.

Lemma lower_char_not_sep c : Py.lower_char c = "."%char → c ≠ "/"%char.
Proof. intros H ->. discriminate. Qed.

(** A video extension starts with a dot, so not with the separator. *)
Lemma is_video_not_sep x :
  is_video x = true → Py.startswith OsPath.sep x = false.
Proof.
  unfold is_video. intros H. apply bool_decide_eq_true_1 in H.
  destruct x as [| c x']; [reflexivity |]. cbn [Py.startswith].
  assert (Hc : Py.lower_char c = "."%char).
  { unfold video_exts in H. cbn [Py.lower] in H.
    rewrite !elem_of_union, !elem_of_singleton in H.
    destruct H as [[[[[H | H] | H] | H] | H] | H]; by injection H. }
  apply lower_char_not_sep in Hc.
  unfold OsPath.sep. by destruct (Ascii.eqb_spec c "/"%char).
Qed.

Lemma startswith_append_nonempty c j x :
  j ≠ "" → Py.startswith c (j ++ x) = Py.startswith c j.
Proof. by destruct j. Qed.

(** The WAV of a video upload is not the saved upload. *)
Lemma src_path_ne_wav_path cfg world f :
  is_video (ext_of f) = true → src_path_of cfg world f ≠ wav_path cfg world.
Proof.
  intros Hv Heq.
  assert (Hx : ext_of f = ".wav"); [| rewrite Hx in Hv; revert Hv; compute_done].
  revert Heq. unfold src_path_of, wav_path, OsPath.join.
  assert (Hs : Py.startswith OsPath.sep (uuid4 world ++ ext_of f)
               = Py.startswith OsPath.sep (uuid4 world ++ ".wav")).
  { destruct (uuid4 world) as [| c j]; [| reflexivity].
    cbn [String.append]. by rewrite is_video_not_sep. }
  rewrite Hs. clear Hs.
  destruct (Py.startswith OsPath.sep (uuid4 world ++ ".wav")).
  - apply append_inv_head.
  - destruct (_ || _)%bool; intros H;
      repeat (apply append_inv_head in H); exact H.
Qed.

Lemma pre_model_state_other cfg world f s p :
  p ≠ src_path_of cfg world f →
  (is_video (ext_of f) = true → p ≠ wav_path cfg world) →
  fs (pre_model_state cfg world f s) !! p = fs s !! p.
Proof.
  intros Hsrc Hwav. unfold pre_model_state, ffmpeg_state, saved.
  assert (Hsrc' : src_path_of cfg world f ≠ p) by congruence.
  destruct (is_video (ext_of f)).
  - assert (Hwav' : wav_path cfg world ≠ p) by (intros <-; by apply Hwav).
    destruct (subprocess_run world) as [msg | rc err [b |]]; cbn [fs write_file];
      by rewrite ?lookup_insert_ne.
  - cbn [fs write_file]. by rewrite lookup_insert_ne.
Qed.



(** The disk after a run, for an accepted upload: the disk before the
    [try] block, with the result file on top when the request
    succeeded. *)
Lemma upload_fs cfg world request f s :
  accepted cfg request f →
  (∃ resp result,
      result_of (upload cfg world request s) = inr resp ∧ status resp = 200
      ∧ fs (state_of (upload cfg world request s))
        = <[out_path cfg world := JsonText result]>
            (fs (pre_model_state cfg world f s)))
  ∨ (∃ resp,
      result_of (upload cfg world request s) = inr resp ∧ status resp = 500
      ∧ fs (state_of (upload cfg world request s))
        = fs (pre_model_state cfg world f s)).
Proof.
  intros Hacc.
  pose proof (get_model_fs cfg world (pre_model_state cfg world f s)) as Hfs.
  accepted_outcome Hacc; unfold result_of, state_of in Hfs |- *; cbn [fst snd].
  - right. by eexists.
  - right. eexists. by rewrite Hfs.
  - right. eexists. by rewrite Hfs.
  - left. eexists _, _. split; [reflexivity |]. split; [reflexivity |].
    cbn [fs write_file]. by rewrite Hfs.
Qed.


Lemma upload_rejected_or_accepted cfg world request s :
  (∃ msg, upload cfg world request s
          = (inr (jsonify (JDict [("error", JStr msg)]) 400), s, [])
          ∧ ∀ f, ¬ accepted cfg request f)
  ∨ (∃ f, accepted cfg request f).
Proof.
  destruct (upload_outcome cfg world request s)
    as [msg Hrej | f e Hacc Hv He | f e Hacc Hff Hg
       | f m e Hacc Hff Hg Ht | f m sg inf Hacc Hff Hg Ht]; eauto.
  left. exists msg. split; [reflexivity |].
  intros f Hacc. by eapply accepted_not_rejected.
Qed.



(** ** The model handle *)

Section ReadsOnlyModel.

Lemma reads_only_model_ret {A} (a : A) : reads_only_model (ret a).
Proof. by intros s1 s2 H. Qed.

Lemma reads_only_model_raise {A} msg : reads_only_model (@raise A msg).
Proof. by intros s1 s2 H. Qed.

Lemma reads_only_model_emit e : reads_only_model (emit e).
Proof. by intros s1 s2 H. Qed.

Lemma reads_only_model_write p d : reads_only_model (modify (write_file p d)).
Proof. by intros s1 s2 H. Qed.

Lemma reads_only_model_bind {A B} (m : M A) (k : A → M B) :
  reads_only_model m → (∀ a, reads_only_model (k a)) →
  reads_only_model (bind m k).
Proof.
  intros Hm Hk s1 s2 H. specialize (Hm s1 s2 H).
  unfold bind, result_of, state_of, calls_of in *.
  destruct (m s1) as [[r1 u1] t1], (m s2) as [[r2 u2] t2]; cbn [fst snd] in *.
  destruct Hm as (-> & -> & Hu). destruct r2 as [e | a]; [done |].
  specialize (Hk a u1 u2 Hu). unfold result_of, state_of, calls_of in Hk.
  destruct (k a u1) as [[r1' u1'] t1'], (k a u2) as [[r2' u2'] t2'];
    cbn [fst snd] in *.
  by destruct Hk as (-> & -> & ->).
Qed.

Lemma reads_only_model_try {A} (m : M A) :
  reads_only_model m → reads_only_model (try_ m).
Proof.
  intros Hm s1 s2 H. specialize (Hm s1 s2 H).
  unfold try_, result_of, state_of, calls_of in *.
  destruct (m s1) as [[r1 u1] t1], (m s2) as [[r2 u2] t2]; cbn [fst snd] in *.
  by destruct Hm as (-> & -> & ->).
Qed.

Lemma reads_only_model_get_model cfg world :
  reads_only_model (get_model cfg world).
Proof. intros s1 s2 H. by apply get_model_depends_on_model. Qed.

Create HintDb reads_only_model.

#[local] Hint Resolve reads_only_model_ret reads_only_model_raise reads_only_model_emit
  reads_only_model_write reads_only_model_try reads_only_model_get_model
  : reads_only_model.

Ltac reads_only_model :=
  repeat first
    [ solve [eauto with reads_only_model]
    | apply reads_only_model_try
    | apply reads_only_model_bind; [| intros ?]
    | match goal with
      | |- reads_only_model (match ?x with _ => _ end) => destruct x
      | |- reads_only_model (if ?b then _ else _) => destruct b
      end ].

Lemma reads_only_model_ffmpeg world src out :
  reads_only_model (ffmpeg_extract_audio world src out).
Proof.
  unfold ffmpeg_extract_audio, run_process. reads_only_model.
Qed.

Lemma reads_only_model_upload_transcribe cfg world f job audio language task :
  reads_only_model (upload_transcribe cfg world f job audio language task).
Proof.
  unfold upload_transcribe, transcribe, json_dump. reads_only_model.
Qed.

Lemma reads_only_model_upload cfg world request :
  reads_only_model (upload cfg world request).
Proof.
  unfold upload, save.
  pose proof reads_only_model_ffmpeg.
  pose proof reads_only_model_upload_transcribe.
  reads_only_model.
Qed.

End ReadsOnlyModel.

Lemma result_of_run {A} (r : string + A) (s : State) (t : list Event) :
  result_of (r, s, t) = r.
Proof. reflexivity. Qed.

Lemma state_of_run {A} (r : string + A) (s : State) (t : list Event) :
  state_of (r, s, t) = s.
Proof. reflexivity. Qed.

Lemma calls_of_run {A} (r : string + A) (s : State) (t : list Event) :
  calls_of (r, s, t) = t.
Proof. reflexivity. Qed.

Lemma constructions_app t1 t2 :
  constructions (t1 ++ t2) = (constructions t1 + constructions t2)%nat.
Proof. induction t1 as [| e t1 IH]; cbn; [done |]. rewrite IH. lia. Qed.

Lemma constructions_pre_model_calls cfg world f :
  constructions (pre_model_calls cfg world f) = 0%nat.
Proof. unfold pre_model_calls. by destruct (is_video _). Qed.

(** What one call to [get_model] does to the handle: nothing, or the
    one construction that sets it. *)
Lemma get_model_effect cfg world s :
  (constructions (calls_of (get_model cfg world s)) = 0%nat
   ∧ state_of (get_model cfg world s) = s)
  ∨ (constructions (calls_of (get_model cfg world s)) = 1%nat
     ∧ _model s = None
     ∧ ∃ i, WhisperModel_new world = inr i
            ∧ _model (state_of (get_model cfg world s)) = Some (built_model cfg i)).
Proof.
  destruct (get_model_cases cfg world s)
    as [(m & Hm & ->) | [(i & Hm & Hi & ->) | (e & Hm & He & ->)]].
  - by left.
  - right. split; [reflexivity |]. split; [done |]. by exists i.
  - by left.
Qed.

(** The same for a whole request. *)
Lemma upload_model_effect cfg world request s :
  (constructions (calls_of (upload cfg world request s)) = 0%nat
   ∧ _model (state_of (upload cfg world request s)) = _model s)
  ∨ (constructions (calls_of (upload cfg world request s)) = 1%nat
     ∧ _model s = None
     ∧ ∃ i, WhisperModel_new world = inr i
            ∧ _model (state_of (upload cfg world request s))
              = Some (built_model cfg i)).
Proof.
  destruct (upload_outcome cfg world request s)
    as [msg Hrej | f e Hacc Hv He | f e Hacc Hff Hg
       | f m e Hacc Hff Hg Ht | f m sg inf Hacc Hff Hg Ht];
    rewrite !calls_of_run, !state_of_run;
    rewrite ?constructions_app, ?constructions_pre_model_calls, ?write_file_model;
    cbn [constructions is_construction]; rewrite ?Nat.add_0_r, ?Nat.add_0_l.
  - by left.
  - left. split; [done | apply pre_model_state_model].
  - destruct (get_model_effect cfg world (pre_model_state cfg world f s))
      as [(-> & ->) | (-> & Hn & i & Hi & ->)].
    + left. split; [done | apply pre_model_state_model].
    + right. rewrite pre_model_state_model in Hn. eauto.
  - destruct (get_model_effect cfg world (pre_model_state cfg world f s))
      as [(-> & ->) | (-> & Hn & i & Hi & ->)].
    + left. split; [done | apply pre_model_state_model].
    + right. rewrite pre_model_state_model in Hn. eauto.
  - destruct (get_model_effect cfg world (pre_model_state cfg world f s))
      as [(-> & ->) | (-> & Hn & i & Hi & ->)].
    + left. split; [done | apply pre_model_state_model].
    + right. rewrite pre_model_state_model in Hn. eauto.
Qed.

Lemma handle_model_effect cfg c s :
  (∃ resp, result_of (handle cfg c s) = inr resp)
  ∧ ((constructions (calls_of (handle cfg c s)) = 0%nat
      ∧ _model (state_of (handle cfg c s)) = _model s)
     ∨ (constructions (calls_of (handle cfg c s)) = 1%nat
        ∧ _model s = None
        ∧ is_Some (_model (state_of (handle cfg c s))))).
Proof.
  destruct c as [| world request]; cbn [handle].
  - split; [by eexists | by left].
  - split; [apply upload_returns |].
    destruct (upload_model_effect cfg world request s)
      as [H | (H1 & H2 & i & _ & H3)]; [by left | right].
    rewrite H3. eauto.
Qed.

Lemma serve_cons cfg c cs s :
  ∃ resp,
    result_of (handle cfg c s) = inr resp
    ∧ calls_of (serve cfg (c :: cs) s)
      = (calls_of (handle cfg c s)
           ++ calls_of (serve cfg cs (state_of (handle cfg c s))))%list
    ∧ state_of (serve cfg (c :: cs) s)
      = state_of (serve cfg cs (state_of (handle cfg c s)))
    ∧ result_of (serve cfg (c :: cs) s)
      = match result_of (serve cfg cs (state_of (handle cfg c s))) with
        | inr rs => inr (resp :: rs)
        | inl e => inl e
        end.
Proof.
  destruct (handle_model_effect cfg c s) as [(resp & Hr) _]. exists resp.
  split; [exact Hr |]. cbn [serve]. unfold bind, ret.
  unfold result_of, state_of, calls_of in *.
  destruct (handle cfg c s) as [[r s1] t1]; cbn [fst snd] in *. subst r.
  destruct (serve cfg cs s1) as [[[e | rs] s2] t2]; cbn [fst snd];
    by rewrite ?app_nil_r.
Qed.

(** Once the handle is set, no sequence of requests constructs a
    model or changes the handle. *)
Lemma serve_keeps_model cfg cs : ∀ s m,
  _model s = Some m →
  constructions (calls_of (serve cfg cs s)) = 0%nat
  ∧ _model (state_of (serve cfg cs s)) = Some m.
Proof.
  induction cs as [| c cs IH]; intros s m Hm; [done |].
  destruct (serve_cons cfg c cs s) as (resp & _ & -> & -> & _).
  destruct (handle_model_effect cfg c s) as [_ [(H0 & Hk) | (_ & Hn & _)]];
    [| congruence].
  rewrite Hm in Hk. destruct (IH _ m Hk) as (IH0 & IHm).
  by rewrite constructions_app, H0, IH0.
Qed.

Lemma serve_constructs_at_most_once cfg cs : ∀ s,
  (constructions (calls_of (serve cfg cs s)) ≤ 1)%nat.
Proof.
  induction cs as [| c cs IH]; intros s; [cbn; lia |].
  destruct (serve_cons cfg c cs s) as (resp & _ & -> & _).
  rewrite constructions_app.
  destruct (handle_model_effect cfg c s)
    as [_ [(H0 & _) | (H1 & _ & (m & Hm))]].
  - rewrite H0. apply IH.
  - rewrite H1. destruct (serve_keeps_model cfg cs _ m Hm) as [-> _]. lia.
Qed.

(** The server answers every request of a sequence. *)
Lemma serve_returns cfg cs : ∀ s,
  ∃ rs, result_of (serve cfg cs s) = inr rs ∧ length rs = length cs.
Proof.
  induction cs as [| c cs IH]; intros s; [by exists [] |].
  destruct (serve_cons cfg c cs s) as (resp & _ & _ & _ & ->).
  destruct (IH (state_of (handle cfg c s))) as (rs & -> & Hlen).
  exists (resp :: rs). split; [done |]. cbn. by rewrite Hlen.
Qed.

(** A handle that [get_model] returned is the one stored in [_model]. *)
Lemma get_model_returns_stored cfg world s m :
  result_of (get_model cfg world s) = inr m →
  _model (state_of (get_model cfg world s)) = Some m.
Proof.
  destruct (get_model_cases cfg world s)
    as [(m0 & Hm & ->) | [(i & Hm & Hi & ->) | (e & Hm & He & ->)]];
    rewrite result_of_run, state_of_run; intros [= <-]; done.
Qed.

Lemma get_model_constructor_call_unset cfg world s e :
  e ∈ calls_of (get_model cfg world s) →
  is_constructor_call e = true ∧ _model s = None.
Proof.
  intros Hin. split; [by eapply get_model_calls_constructor |].
  destruct (_model s) as [m |] eqn:Hm; [| done].
  rewrite (get_model_set cfg world s m Hm) in Hin. by apply elem_of_nil in Hin.
Qed.

(** Once the handle is set, every call returns it and calls nothing. *)
Lemma get_model_runs_set cfg ws : ∀ s m k r t,
  _model s = Some m →
  get_model_runs cfg ws s !! k = Some (r, t) →
  r = inr m ∧ t = [].
Proof.
  induction ws as [| w ws IH]; intros s m k r t Hm Hk; [done |].
  cbn [get_model_runs] in Hk. cbv zeta in Hk.
  rewrite (get_model_set cfg w s m Hm) in Hk.
  rewrite result_of_run, calls_of_run, state_of_run in Hk.
  destruct k as [| k]; cbn in Hk.
  - by injection Hk as <- <-.
  - by eapply IH.
Qed.

(** After a call that returned a handle, every call returns that
    handle and calls nothing. *)
Lemma get_model_runs_same cfg ws : ∀ s j k m tj r t,
  (j < k)%nat →
  get_model_runs cfg ws s !! j = Some (inr m, tj) →
  get_model_runs cfg ws s !! k = Some (r, t) →
  r = inr m ∧ t = [].
Proof.
  induction ws as [| w ws IH]; intros s j k m tj r t Hlt Hj Hk; [done |].
  cbn [get_model_runs] in Hk, Hj. cbv zeta in Hk, Hj.
  destruct k as [| k]; [lia |]. cbn in Hk.
  destruct j as [| j]; cbn in Hj.
  - injection Hj as Hr _. apply get_model_returns_stored in Hr.
    by eapply get_model_runs_set.
  - eapply (IH _ j k); [lia | exact Hj | exact Hk].
Qed.

(** A call that constructs the model comes after calls that all
    raised. *)
Lemma get_model_runs_construction cfg ws : ∀ s k r t,
  get_model_runs cfg ws s !! k = Some (r, t) →
  (0 < constructions t)%nat →
  ∀ j r' t', (j < k)%nat →
             get_model_runs cfg ws s !! j = Some (r', t') →
             ∃ e, r' = inl e.
Proof.
  induction ws as [| w ws IH]; intros s k r t Hk Hc j r' t' Hlt Hj; [done |].
  cbn [get_model_runs] in Hk, Hj. cbv zeta in Hk, Hj.
  destruct k as [| k]; [lia |]. cbn in Hk.
  destruct j as [| j]; cbn in Hj.
  - injection Hj as <- <-.
    destruct (result_of (get_model cfg w s)) as [e | m] eqn:Hr; [by exists e |].
    apply get_model_returns_stored in Hr.
    destruct (get_model_runs_set cfg ws _ m k r t Hr Hk) as [_ ->].
    cbn in Hc. lia.
  - eapply (IH _ k r t Hk Hc j); [lia | exact Hj].
Qed.

(** C7 as stated fails on "only on the first call": when the first
    construction raises, the handle stays unset and the model is
    constructed on the second call. *)
Lemma model_constructed_on_second_call : ¬ constructed_on_first_call_only.
Proof.
  intros H.
  specialize (H default_config [world_model_unavailable; world_ok] fresh_state 1%nat
                (inr (built_model default_config 1))
                [EvWhisperModel "small" "cpu" "default" (inr 1%nat)]
                eq_refl eq_refl).
  cbn in H. assert (1 = 0)%nat by (apply H; lia). discriminate.
Qed.

(** C7, amended: the model handle is a lazily initialised singleton.
    [get_model] calls the constructor only when [_model] is unset, and
    then exactly once, storing the object the constructor returns; a
    call that constructs the model is the first call, or comes after
    calls whose construction all raised.  When [_model] is set,
    [get_model] returns that handle, makes no call and leaves the
    state unchanged, so every call after one that returned a handle
    returns the same handle.  Over any sequence of requests at most
    one construction takes place, and none once the handle is set,
    which is then kept.  A request sees the state through this handle
    only: from two states with the same handle, [upload] returns the
    same response, makes the same calls and leaves the same handle;
    the health check touches nothing. *)
Theorem model_handle_is_lazy_singleton cfg :
  (∀ world s e, e ∈ calls_of (get_model cfg world s) →
                is_constructor_call e = true ∧ _model s = None)
  ∧ (∀ world s, _model s = None →
       calls_of (get_model cfg world s)
       = [EvWhisperModel (MODEL_SIZE cfg) (device_arg cfg) (compute_arg cfg)
            (WhisperModel_new world)]
       ∧ ∀ i, WhisperModel_new world = inr i →
              result_of (get_model cfg world s) = inr (built_model cfg i)
              ∧ state_of (get_model cfg world s)
                = set_model (Some (built_model cfg i)) s)
  ∧ (∀ ws s k r t,
       get_model_runs cfg ws s !! k = Some (r, t) →
       (0 < constructions t)%nat →
       ∀ j r' t', (j < k)%nat →
                  get_model_runs cfg ws s !! j = Some (r', t') →
                  ∃ e, r' = inl e)
  ∧ (∀ world s m, _model s = Some m → get_model cfg world s = (inr m, s, []))
  ∧ (∀ ws s j k m tj r t,
       (j < k)%nat →
       get_model_runs cfg ws s !! j = Some (inr m, tj) →
       get_model_runs cfg ws s !! k = Some (r, t) →
       r = inr m ∧ t = [])
  ∧ (∀ cs s, (constructions (calls_of (serve cfg cs s)) ≤ 1)%nat)
  ∧ (∀ cs s m, _model s = Some m →
       constructions (calls_of (serve cfg cs s)) = 0%nat
       ∧ _model (state_of (serve cfg cs s)) = Some m)
  ∧ (∀ world request, reads_only_model (upload cfg world request))
  ∧ (∀ s, handle cfg Healthz s = (inr healthz, s, [])).
Proof.
  split; [apply get_model_constructor_call_unset |].
  split.
  { intros world s Hn.
    destruct (WhisperModel_new world) as [e | i] eqn:Hw.
    - rewrite (get_model_unset_raises cfg world s e) by done.
      split; [reflexivity | discriminate].
    - rewrite (get_model_unset_ok cfg world s i) by done.
      split; [reflexivity |]. by intros i' [= <-]. }
  split; [apply get_model_runs_construction |].
  split; [apply get_model_set |].
  split; [apply get_model_runs_same |].
  split; [apply serve_constructs_at_most_once |].
  split; [apply serve_keeps_model |].
  split; [apply reads_only_model_upload | reflexivity].
Qed.

(** Three uploads in a row: the construction raises during the first;
    the second constructs the model; the third reuses it. *)
Example serve_three_uploads :
  let cs := [Upload world_model_unavailable (request_of talk_mp3);
             Upload world_ok (request_of talk_mp3);
             Upload world_ok (request_of clip_mp4)] in
  let r := serve default_config cs fresh_state in
  map is_construction (List.filter is_constructor_call (calls_of r))
  = [false; true]
  ∧ _model (state_of r) = Some (built_model default_config 1)
  ∧ (∃ rs, result_of r = inr rs ∧ map status rs = [500; 200; 200]).
Proof.
  cbv zeta. split; [by vm_compute |]. split; [by vm_compute |].
  eexists. split; [by vm_compute | by vm_compute].
Qed.

(** * Further properties *)

(** ** Configuration: ALLOWED_EXT *)

Lemma append_nil_r (x : string) : x ++ "" = x.
Proof. induction x as [| d x IH]; [done |]. by rewrite append_cons, IH. Qed.

Lemma split_comma_acc_nonempty s : ∀ cur, Py.split_comma_acc s cur ≠ [].
Proof.
  induction s as [| c s IH]; intros cur; cbn [Py.split_comma_acc]; [done |].
  destruct (Ascii.eqb c ","%char); [done | apply IH].
Qed.

Lemma join_cons sep x l :
  l ≠ [] → Py.join sep (x :: l) = x ++ sep ++ Py.join sep l.
Proof. by destruct l. Qed.

Lemma join_split_comma_acc s : ∀ cur,
  Py.join "," (Py.split_comma_acc s cur) = cur ++ s.
Proof.
  induction s as [| c s IH]; intros cur; cbn [Py.split_comma_acc].
  - cbn [Py.join]. by rewrite append_nil_r.
  - destruct (Ascii.eqb_spec c ","%char) as [-> | Hc].
    + rewrite join_cons by apply split_comma_acc_nonempty. by rewrite IH.
    + rewrite IH. by rewrite append_assoc.
Qed.

Lemma split_comma_acc_no_comma s : ∀ cur x,
  occurs ","%char cur = false →
  x ∈ Py.split_comma_acc s cur → occurs ","%char x = false.
Proof.
  induction s as [| c s IH]; intros cur x Hcur; cbn [Py.split_comma_acc].
  - by intros ->%list_elem_of_singleton.
  - destruct (Ascii.eqb c ","%char) eqn:Hc.
    + intros [-> | Hin]%elem_of_cons; [done | by apply (IH "" x)].
    + apply IH. rewrite occurs_app, Hcur. cbn [occurs orb]. by rewrite Hc.
Qed.

(** X1: ALLOWED_EXT is the set of the comma-separated fields of the
    environment value, taken verbatim: joining the fields with commas
    gives the value back, so nothing is trimmed or changed in case,
    and no entry holds a comma.  When the variable is unset the set
    is the seven default extensions. *)
Theorem load_config_allowed_ext env :
  (∀ v, env !! "ALLOWED_EXT" = Some v →
        (∀ x, x ∈ ALLOWED_EXT (load_config env) ↔ x ∈ Py.split_comma v)
        ∧ Py.join "," (Py.split_comma v) = v
        ∧ (∀ x, x ∈ ALLOWED_EXT (load_config env) → occurs ","%char x = false))
  ∧ (env !! "ALLOWED_EXT" = None →
     ALLOWED_EXT (load_config env)
     = {[ ".mp3"; ".wav"; ".m4a"; ".flac"; ".mp4"; ".mov"; ".mkv" ]}).
Proof.
  split.
  - intros v Hv.
    assert (Hset : ∀ x, x ∈ ALLOWED_EXT (load_config env) ↔ x ∈ Py.split_comma v).
    { intros x. unfold load_config, getenv; cbn [ALLOWED_EXT]. rewrite Hv.
      cbn [default]. apply elem_of_list_to_set. }
    split; [exact Hset |]. split.
    + unfold Py.split_comma. by rewrite join_split_comma_acc.
    + intros x Hx. apply Hset in Hx.
      by apply (split_comma_acc_no_comma v "" x).
  - intros Hn. unfold load_config, getenv; cbn [ALLOWED_EXT]. rewrite Hn.
    by vm_compute.
Qed.

Lemma load_config_allowed_ext_witness :
  env_custom !! "ALLOWED_EXT" = Some ".mp3, .wav,.OGG"
  ∧ (" .wav" ∈ ALLOWED_EXT (load_config env_custom))
  ∧ (".wav" ∉ ALLOWED_EXT (load_config env_custom)).
Proof.
  assert (Hv : env_custom !! "ALLOWED_EXT" = Some ".mp3, .wav,.OGG")
    by reflexivity.
  destruct (load_config_allowed_ext env_custom) as [Hset _].
  destruct (Hset _ Hv) as (Hiff & _ & _).
  split; [exact Hv |]. split.
  - apply Hiff. compute_done.
  - intros H. apply Hiff in H. revert H. compute_done.
Defined.

(** ** Which extensions an upload can have *)

Lemma lower_char_extsep c :
  Ascii.eqb (Py.lower_char c) OsPath.extsep = Ascii.eqb c OsPath.extsep.
Proof. destruct c as [[] [] [] [] [] [] [] []]; reflexivity. Qed.

Lemma occurs_extsep_lower s :
  occurs OsPath.extsep (Py.lower s) = occurs OsPath.extsep s.
Proof.
  induction s as [| c s IH]; cbn [Py.lower occurs]; [reflexivity |].
  by rewrite IH, lower_char_extsep.
Qed.

Lemma drop_succ n : ∀ p d y,
  Py.drop n p = String d y → Py.drop (S n) p = y.
Proof.
  induction n as [| n IH]; intros p d y.
  - cbn [Py.drop]. by intros ->.
  - destruct p as [| c p]; [discriminate |]. cbn [Py.drop]. apply IH.
Qed.

(** The extension [splitext] returns is empty, or one dot followed by
    characters that are neither dots nor separators. *)
Lemma splitext_ext_shape p :
  snd (OsPath.splitext p) = ""
  ∨ ∃ y, snd (OsPath.splitext p) = String OsPath.extsep y
         ∧ occurs OsPath.extsep y = false
         ∧ occurs OsPath.sep y = false.
Proof.
  pose proof (splitext_ext_dot p) as Hdot.
  pose proof (splitext_ext_no_sep p) as Hsep.
  destruct Hdot as [He | Hst]; [by left | right].
  destruct (snd (OsPath.splitext p)) as [| d y] eqn:Hext; [discriminate |].
  cbn [Py.startswith] in Hst. apply Ascii.eqb_eq in Hst as ->.
  exists y. split; [reflexivity |]. split.
  - revert Hext. unfold OsPath.splitext.
    destruct (Z.ltb_spec (Py.rfind OsPath.sep p) (Py.rfind OsPath.extsep p))
      as [Hlt | _]; [| discriminate].
    destruct (OsPath.has_stem _ _ _ _); [| discriminate]. cbn [andb snd].
    intros Hd. apply drop_succ in Hd as <-.
    assert (H0 : -1 ≤ Py.rfind OsPath.sep p)
      by (apply rfind_from_lower_bound; lia).
    apply (rfind_from_beyond OsPath.extsep p 0 (-1)); [lia |].
    fold (Py.rfind OsPath.extsep p). lia.
  - cbn [occurs] in Hsep. by apply orb_false_iff in Hsep as [_ ?].
Qed.

Lemma ext_of_well_formed f : well_formed_ext (ext_of f).
Proof.
  split; [apply lower_idempotent |]. unfold ext_of.
  destruct (splitext_ext_shape (filename f)) as [-> | (y & -> & Hd & Hs)];
    [by left | right].
  exists (Py.lower y). split; [reflexivity |].
  by rewrite occurs_extsep_lower, occurs_sep_lower.
Qed.




(** ** The conversion step *)

Lemma length_take n : ∀ s,
  String.length (Py.take n s) = Nat.min n (String.length s).
Proof.
  induction n as [| n IH]; intros s; [reflexivity |].
  destruct s as [| d s]; [reflexivity |]. cbn [Py.take String.length].
  by rewrite IH.
Qed.

Lemma take_all n : ∀ s, (String.length s ≤ n)%nat → Py.take n s = s.
Proof.
  induction n as [| n IH]; intros s Hlen.
  - destruct s; [reflexivity | cbn in Hlen; lia].
  - destruct s as [| d s]; [reflexivity |]. cbn [Py.take].
    rewrite IH; [reflexivity | cbn in Hlen; lia].
Qed.

(** X3: [ffmpeg_extract_audio] returns normally exactly when the
    process ran and exited with code 0.  Whatever the outcome it
    makes one call, the command
    [ffmpeg -y -i in -vn -ac 1 -ar 16000 out], leaves the model handle
    alone and changes no path other than [out]. *)
Theorem ffmpeg_extract_audio_effect world in_path out_path s :
  let r := ffmpeg_extract_audio world in_path out_path s in
  (result_of r = inr tt
   ↔ ∃ err w, subprocess_run world = Completed 0 err w)
  ∧ calls_of r
    = [EvSubprocess ["ffmpeg"; "-y"; "-i"; in_path; "-vn"; "-ac"; "1";
                     "-ar"; "16000"; out_path]]
  ∧ _model (state_of r) = _model s
  ∧ (∀ p, p ≠ out_path → fs (state_of r) !! p = fs s !! p)
  ∧ (∀ msg, subprocess_run world = RunRaises msg →
            result_of r = inl msg ∧ state_of r = s).
Proof.
  cbv zeta. rewrite ffmpeg_extract_audio_run.
  rewrite result_of_run, state_of_run, calls_of_run.
  split; [| split; [reflexivity |]; split; [apply ffmpeg_state_model |]; split].
  - unfold ffmpeg_result.
    destruct (subprocess_run world) as [msg | rc err w].
    + split; [discriminate | by intros (? & ? & ?)].
    + destruct (Z.eqb_spec rc 0) as [-> | Hrc]; cbn [negb].
      * split; [by eexists _, _ | done].
      * split; [discriminate | intros (? & ? & [= ? _ _]); lia].
  - intros p Hp. unfold ffmpeg_state.
    destruct (subprocess_run world) as [msg | rc err [b |]]; try reflexivity.
    cbn [fs write_file]. by rewrite lookup_insert_ne.
  - intros msg Hm. unfold ffmpeg_result, ffmpeg_state. by rewrite Hm.
Qed.

(** X4: when ffmpeg exits with a non-zero code, the exception raised
    is ["ffmpeg failed: "] followed by the first 500 characters of
    its stderr: a prefix of stderr of length [min 500 (len stderr)],
    the whole of it when it has at most 500 characters. *)
Theorem ffmpeg_failure_message world in_path out_path s rc err w :
  subprocess_run world = Completed rc err w →
  rc ≠ 0 →
  ∃ shown rest,
    result_of (ffmpeg_extract_audio world in_path out_path s)
    = inl ("ffmpeg failed: " ++ shown)
    ∧ err = shown ++ rest
    ∧ String.length shown = Nat.min 500 (String.length err)
    ∧ ((String.length err ≤ 500)%nat → shown = err).
Proof.
  intros Hrun Hrc. exists (Py.take 500 err), (Py.drop 500 err).
  split; [by eapply ffmpeg_nonzero_raises |].
  split; [by rewrite take_drop |]. split; [apply length_take | apply take_all].
Qed.

Lemma ffmpeg_failure_message_witness :
  subprocess_run world_ffmpeg_fails = Completed 1 "Invalid data found" None
  ∧ 1 ≠ 0
  ∧ result_of (ffmpeg_extract_audio world_ffmpeg_fails "in.mp4" "out.wav"
                 fresh_state)
    = inl "ffmpeg failed: Invalid data found".
Proof.
  split; [reflexivity |]. split; [lia |].
  destruct (ffmpeg_failure_message world_ffmpeg_fails "in.mp4" "out.wav"
              fresh_state 1 "Invalid data found" None eq_refl)
    as (shown & rest & Hr & _ & _ & Hall); [lia |].
  rewrite Hr. rewrite Hall; [reflexivity | cbn; lia].
Defined.

(** ** The command-line entry *)

Lemma cli_transcribe_run cfg world audio s :
  cli_transcribe cfg world audio s
  = match result_of (get_model cfg world s) with
    | inl e =>
        (inr tt, state_of (get_model cfg world s),
         (calls_of (get_model cfg world s)
            ++ [EvPrint ("Transcription failed: " ++ e)])%list)
    | inr m =>
        match model_transcribe world with
        | inl e =>
            (inr tt, state_of (get_model cfg world s),
             (calls_of (get_model cfg world s)
                ++ [EvTranscribe m audio None "transcribe";
                    EvPrint ("Transcription failed: " ++ e)])%list)
        | inr (segments, info) =>
            (inr tt, state_of (get_model cfg world s),
             (calls_of (get_model cfg world s)
                ++ [EvTranscribe m audio None "transcribe";
                    EvPrint (nl ++ "Transcription result:" ++ nl);
                    EvPrint (full_text_of (map seg_dict segments))])%list)
        end
    end.
Proof.
  unfold cli_transcribe. run_step.
  destruct (get_model cfg world s) as [[[e | m] s1] t1]; cbn [fst snd app].
  - reflexivity.
  - destruct (model_transcribe world) as [e | [segments info]];
      cbn [fst snd app]; by rewrite ?app_nil_r, <- ?app_assoc.
Qed.

Lemma transcribe_file_run cfg world file_path s :
  transcribe_file cfg world file_path s
  = if is_video (Py.lower (snd (OsPath.splitext file_path))) then
      match ffmpeg_result world with
      | inl e =>
          (inr tt, cli_pre_state world file_path s,
           (cli_pre_calls file_path
              ++ [EvPrint ("Audio extraction failed: " ++ e)])%list)
      | inr _ =>
          (result_of (cli_transcribe cfg world (cli_audio_path file_path)
                        (cli_pre_state world file_path s)),
           state_of (cli_transcribe cfg world (cli_audio_path file_path)
                       (cli_pre_state world file_path s)),
           (cli_pre_calls file_path
              ++ calls_of (cli_transcribe cfg world (cli_audio_path file_path)
                             (cli_pre_state world file_path s)))%list)
      end
    else cli_transcribe cfg world file_path s.
Proof.
  unfold transcribe_file, cli_pre_state, cli_pre_calls, cli_audio_path.
  destruct (is_video _); [| reflexivity].
  fold (cli_wav_path file_path). unfold bind at 1, try_ at 1.
  rewrite ffmpeg_extract_audio_run.
  destruct (ffmpeg_result world) as [e | []].
  - reflexivity.
  - destruct (cli_transcribe _ _ _ _) as [[r s1] t1]. reflexivity.
Qed.

(** The three ways [transcribe_file] ends, with the calls made. *)
Lemma transcribe_file_cases cfg world file_path s :
  let s1 := cli_pre_state world file_path s in
  let g := get_model cfg world s1 in
  let audio := cli_audio_path file_path in
  (∃ e, is_video (Py.lower (snd (OsPath.splitext file_path))) = true
        ∧ ffmpeg_result world = inl e
        ∧ transcribe_file cfg world file_path s
          = (inr tt, s1,
             (cli_pre_calls file_path
                ++ [EvPrint ("Audio extraction failed: " ++ e)])%list))
  ∨ ((is_video (Py.lower (snd (OsPath.splitext file_path))) = true →
      ffmpeg_result world = inr tt)
     ∧ ((∃ e, result_of g = inl e
              ∧ transcribe_file cfg world file_path s
                = (inr tt, state_of g,
                   (cli_pre_calls file_path ++ calls_of g
                      ++ [EvPrint ("Transcription failed: " ++ e)])%list))
        ∨ (∃ m e, result_of g = inr m ∧ model_transcribe world = inl e
                  ∧ transcribe_file cfg world file_path s
                    = (inr tt, state_of g,
                       (cli_pre_calls file_path ++ calls_of g
                          ++ [EvTranscribe m audio None "transcribe";
                              EvPrint ("Transcription failed: " ++ e)])%list))
        ∨ (∃ m segments info,
              result_of g = inr m
              ∧ model_transcribe world = inr (segments, info)
              ∧ transcribe_file cfg world file_path s
                = (inr tt, state_of g,
                   (cli_pre_calls file_path ++ calls_of g
                      ++ [EvTranscribe m audio None "transcribe";
                          EvPrint (nl ++ "Transcription result:" ++ nl);
                          EvPrint (full_text_of (map seg_dict segments))])%list)))).
Proof.
  cbv zeta. rewrite transcribe_file_run.
  assert (Hcli : ∀ a s0,
    (∃ e, result_of (get_model cfg world s0) = inl e
          ∧ cli_transcribe cfg world a s0
            = (inr tt, state_of (get_model cfg world s0),
               (calls_of (get_model cfg world s0)
                  ++ [EvPrint ("Transcription failed: " ++ e)])%list))
    ∨ (∃ m e, result_of (get_model cfg world s0) = inr m
              ∧ model_transcribe world = inl e
              ∧ cli_transcribe cfg world a s0
                = (inr tt, state_of (get_model cfg world s0),
                   (calls_of (get_model cfg world s0)
                      ++ [EvTranscribe m a None "transcribe";
                          EvPrint ("Transcription failed: " ++ e)])%list))
    ∨ (∃ m segments info,
          result_of (get_model cfg world s0) = inr m
          ∧ model_transcribe world = inr (segments, info)
          ∧ cli_transcribe cfg world a s0
            = (inr tt, state_of (get_model cfg world s0),
               (calls_of (get_model cfg world s0)
                  ++ [EvTranscribe m a None "transcribe";
                      EvPrint (nl ++ "Transcription result:" ++ nl);
                      EvPrint (full_text_of (map seg_dict segments))])%list))).
  { intros a s0. rewrite cli_transcribe_run.
    destruct (result_of (get_model cfg world s0)) as [e | m];
      [left; by exists e |].
    destruct (model_transcribe world) as [e | [segments info]].
    - right; left. by exists m, e.
    - right; right. by exists m, segments, info. }
  unfold cli_pre_state, cli_pre_calls, cli_audio_path.
  destruct (is_video _) eqn:Hv.
  - destruct (ffmpeg_result world) as [e | []] eqn:He.
    + left. by exists e.
    + right. split; [done |].
      destruct (Hcli (cli_wav_path file_path)
                  (ffmpeg_state world (cli_wav_path file_path) s))
        as [(e & Hg & ->) | [(m & e & Hg & Ht & ->) | (m & sg & inf & Hg & Ht & ->)]];
        rewrite result_of_run, state_of_run, calls_of_run.
      * left. by exists e.
      * right; left. by exists m, e.
      * right; right. by exists m, sg, inf.
  - right. split; [done |]. cbn [app]. apply Hcli.
Qed.

Lemma printed_app t1 t2 : printed (t1 ++ t2) = (printed t1 ++ printed t2)%list.
Proof.
  induction t1 as [| e t1 IH]; [reflexivity |].
  destruct e; cbn [app printed]; by rewrite IH.
Qed.

Lemma printed_get_model cfg world s : printed (calls_of (get_model cfg world s)) = [].
Proof.
  destruct (get_model_cases cfg world s)
    as [(m & _ & ->) | [(i & _ & _ & ->) | (e & _ & _ & ->)]]; reflexivity.
Qed.

Lemma printed_cli_pre_calls file_path : printed (cli_pre_calls file_path) = [].
Proof. unfold cli_pre_calls. by destruct (is_video _). Qed.


Lemma cli_pre_state_model world file_path s :
  _model (cli_pre_state world file_path s) = _model s.
Proof.
  unfold cli_pre_state. destruct (is_video _); [| reflexivity].
  apply ffmpeg_state_model.
Qed.

(** In [transcribe_file] the WAV is never the input file. *)
Lemma cli_wav_path_ne file_path :
  is_video (Py.lower (snd (OsPath.splitext file_path))) = true →
  cli_wav_path file_path ≠ file_path.
Proof.
  intros Hv Heq.
  assert (H : fst (OsPath.splitext file_path) ++ ".wav"
              = fst (OsPath.splitext file_path) ++ snd (OsPath.splitext file_path))
    by (rewrite splitext_append; exact Heq).
  apply append_inv_head in H. rewrite <- H in Hv. revert Hv. compute_done.
Qed.




(** X7: [transcribe_file] runs the model only after a conversion that
    did not fail, only with a handle [get_model] returned, always
    with no language and the task "transcribe", and on the WAV for a
    video and on the file itself otherwise. *)
Theorem transcribe_file_model_call cfg world file_path s m q language task :
  EvTranscribe m q language task
    ∈ calls_of (transcribe_file cfg world file_path s) →
  q = (if is_video (Py.lower (snd (OsPath.splitext file_path)))
       then fst (OsPath.splitext file_path) ++ ".wav"
       else file_path)
  ∧ language = None ∧ task = "transcribe"
  ∧ result_of (get_model cfg world s) = inr m
  ∧ (is_video (Py.lower (snd (OsPath.splitext file_path))) = true →
     result_of (ffmpeg_extract_audio world file_path
                  (cli_wav_path file_path) s) = inr tt).
Proof.
  assert (Hctor : ∀ s', EvTranscribe m q language task
                        ∉ calls_of (get_model cfg world s')).
  { intros s' H. apply get_model_calls_constructor in H. discriminate. }
  assert (Hpre : EvTranscribe m q language task ∉ cli_pre_calls file_path).
  { unfold cli_pre_calls. destruct (is_video _);
      [intros H%list_elem_of_singleton | intros []%elem_of_nil]; discriminate. }
  assert (Hgm : result_of (get_model cfg world (cli_pre_state world file_path s))
                = result_of (get_model cfg world s))
    by apply get_model_depends_on_model, cli_pre_state_model.
  rewrite ffmpeg_extract_audio_run, result_of_run. fold (cli_audio_path file_path).
  destruct (transcribe_file_cases cfg world file_path s)
    as [(e & Hv & He & ->)
       | [Hff [(e & Hr & ->)
              | [(m' & e & Hr & Ht & ->) | (m' & sg & inf & Hr & Ht & ->)]]]];
    rewrite calls_of_run, ?elem_of_app, ?elem_of_cons, ?elem_of_nil.
  - intros [Hin | [[=] | []]]. done.
  - intros [Hin | [Hin | [[=] | []]]]; [done | by apply Hctor in Hin].
  - intros [Hin | [Hin | [[= -> -> -> ->] | [[=] | []]]]];
      [done | by apply Hctor in Hin |]. by rewrite <- Hgm.
  - intros [Hin | [Hin | [[= -> -> -> ->] | [[=] | [[=] | []]]]]];
      [done | by apply Hctor in Hin |]. by rewrite <- Hgm.
Qed.

Lemma transcribe_file_model_call_witness :
  EvTranscribe (built_model default_config 1) "media/Clip.wav" None "transcribe"
    ∈ calls_of (transcribe_file default_config world_ok "media/Clip.MP4"
                  fresh_state)
  ∧ result_of (get_model default_config world_ok fresh_state)
    = inr (built_model default_config 1).
Proof.
  assert (Hin : EvTranscribe (built_model default_config 1) "media/Clip.wav"
                  None "transcribe"
                ∈ calls_of (transcribe_file default_config world_ok
                              "media/Clip.MP4" fresh_state)).
  { vm_compute. apply list_elem_of_further, list_elem_of_further,
      list_elem_of_here. }
  split; [exact Hin |].
  by destruct (transcribe_file_model_call _ _ _ _ _ _ _ _ Hin)
    as (_ & _ & _ & Hg & _).
Defined.

(** ** Status codes and the calls behind them *)



(** ** The calls of a successful request *)

(** X9: a successful request makes these calls, in this order: it
    saves the upload, runs ffmpeg when the upload is a video,
    constructs the model when no handle is stored (with MODEL_SIZE,
    the device "cpu" standing for "auto" and the compute type
    "default" standing for "auto"), runs the model on the audio path
    with the language and task of the form, and dumps the result.
    Afterwards the handle it ran with is the one stored. *)
Theorem upload_success_calls cfg world request s resp :
  result_of (upload cfg world request s) = inr resp →
  status resp = 200 →
  ∃ f m,
    accepted cfg request f
    ∧ calls_of (upload cfg world request s)
      = ([EvSave (src_path_of cfg world f)]
           ++ (if is_video (ext_of f)
               then [EvSubprocess
                       (ffmpeg_cmd (src_path_of cfg world f) (wav_path cfg world))]
               else [])
           ++ match _model s with
              | Some _ => []
              | None =>
                  [EvWhisperModel (MODEL_SIZE cfg)
                     (if String.eqb (DEVICE cfg) "auto" then "cpu" else DEVICE cfg)
                     (if String.eqb (COMPUTE_TYPE cfg) "auto" then "default"
                      else COMPUTE_TYPE cfg)
                     (inr (wm_id m))]
              end
           ++ [EvTranscribe m (audio_path_of cfg world f)
                 (language_of request) (task_of request);
               EvJsonDump (out_path cfg world)])%list
    ∧ _model (state_of (upload cfg world request s)) = Some m
    ∧ (∀ m0, _model s = Some m0 → m = m0).
Proof.
  intros Hr Hst.
  destruct (upload_success _ _ _ _ _ Hr Hst)
    as (f & m & segments & info & Hacc & Hff & Hg & Ht & Hrun).
  exists f, m. split; [exact Hacc |]. rewrite Hrun.
  rewrite calls_of_run, state_of_run, write_file_model.
  pose proof (pre_model_state_model cfg world f s) as Hpm.
  unfold pre_model_calls. cbn [app].
  destruct (get_model_cases cfg world (pre_model_state cfg world f s))
    as [(m0 & Hm & Hrun') | [(i & Hm & Hi & Hrun') | (e & Hm & He & Hrun')]];
    rewrite Hrun' in Hg |- *;
    rewrite result_of_run in Hg; try discriminate;
    rewrite ?calls_of_run, ?state_of_run;
    injection Hg as <-; rewrite Hpm in Hm; rewrite Hm.
  - split; [reflexivity |]. split; [by rewrite Hpm |]. by intros ? [= ->].
  - split; [reflexivity |]. split; [reflexivity | discriminate].
Qed.

Lemma upload_success_calls_witness :
  ∃ resp,
    result_of (upload default_config world_ok (request_of clip_mp4) fresh_state)
    = inr resp
    ∧ status resp = 200
    ∧ calls_of (upload default_config world_ok (request_of clip_mp4) fresh_state)
      = [EvSave "uploads/1b4e28ba.mp4";
         EvSubprocess ["ffmpeg"; "-y"; "-i"; "uploads/1b4e28ba.mp4"; "-vn";
                       "-ac"; "1"; "-ar"; "16000"; "uploads/1b4e28ba.wav"];
         EvWhisperModel "small" "cpu" "default" (inr 1%nat);
         EvTranscribe (built_model default_config 1) "uploads/1b4e28ba.wav"
           None "transcribe";
         EvJsonDump "results/1b4e28ba.json"].
Proof.
  eexists. split; [reflexivity |]. split; [reflexivity |].
  destruct (upload_success_calls default_config world_ok (request_of clip_mp4)
              fresh_state _ eq_refl eq_refl)
    as (f & m & (Hf & _) & Hcalls & Hm & _).
  injection Hf as <-. rewrite Hcalls.
  assert (m = built_model default_config 1) as ->
    by (vm_compute in Hm; injection Hm as <-; reflexivity).
  reflexivity.
Defined.

(** ** The form fields *)

(** X10: [upload] reads the form through its two defaults only: a
    request whose "language" is the empty string is handled exactly
    as one without the field, and a request without "task" exactly as
    one whose task is "transcribe".  An empty "task" is not
    defaulted: it reaches the model as the empty string. *)
Theorem upload_form_defaults cfg world request s :
  upload cfg world request s
  = upload cfg world
      {| files_file := files_file request;
         form_language :=
           match form_language request with
           | Some "" => None
           | other => other
           end;
         form_task :=
           match form_task request with
           | None => Some "transcribe"
           | other => other
           end |} s
  ∧ (form_task request = Some "" →
     ∀ m p language task,
       EvTranscribe m p language task ∈ calls_of (upload cfg world request s) →
       task = "").
Proof.
  split.
  - unfold upload, language_of, task_of; cbn [files_file form_language form_task].
    destruct (form_language request) as [[| c l] |],
      (form_task request) as [t |]; reflexivity.
  - intros Ht m p language task Hin.
    destruct (upload_rejected_or_accepted cfg world request s)
      as [(msg & Hrun & _) | (f & Hacc)].
    + rewrite Hrun, calls_of_run in Hin. by apply elem_of_nil in Hin.
    + pose proof (upload_transcribes_only_audio_path _ _ _ f _ _ _ _ _ Hacc Hin)
        as (_ & _ & Htask).
      rewrite Htask. unfold task_of. by rewrite Ht.
Qed.

(** ** Where the files of a request lie *)

Lemma startswith_no_sep b :
  occurs OsPath.sep b = false → Py.startswith OsPath.sep b = false.
Proof.
  destruct b as [| d b]; [reflexivity |]. cbn [occurs Py.startswith].
  by intros [? _]%orb_false_iff.
Qed.

(** [join(a, b)] is [a] and [b], with a separator between them unless
    [a] is empty or ends with one, when [b] holds no separator. *)
Lemma join_prefix a b :
  occurs OsPath.sep b = false →
  ∃ pre, (pre = a ∨ pre = a ++ String OsPath.sep "")
         ∧ OsPath.join a b = pre ++ b.
Proof.
  intros Hb. unfold OsPath.join. rewrite startswith_no_sep by done.
  destruct (_ || _)%bool.
  - exists a. split; [by left | reflexivity].
  - exists (a ++ String OsPath.sep ""). split; [by right |].
    by rewrite append_assoc.
Qed.

Lemma join_inj_no_sep a a' b b' :
  occurs OsPath.sep b = false → occurs OsPath.sep b' = false →
  OsPath.join a b = OsPath.join a' b' → b = b'.
Proof.
  intros Hb Hb' Heq.
  rewrite <- (basename_join a b Hb), <- (basename_join a' b' Hb').
  by rewrite Heq.
Qed.

(** X11: the file name the client sends reaches the disk through its
    extension only, and that extension holds no separator.  For a
    job id without a separator, the saved upload, the WAV and the
    result file lie directly in UPLOAD_DIR, UPLOAD_DIR and RESULT_DIR,
    under the names [<job_id><ext>], [<job_id>.wav] and
    [<job_id>.json]. *)
Theorem upload_paths cfg world f :
  occurs OsPath.sep (uuid4 world) = false →
  (∃ pre, (pre = UPLOAD_DIR cfg ∨ pre = UPLOAD_DIR cfg ++ "/")
          ∧ src_path_of cfg world f = pre ++ uuid4 world ++ ext_of f
          ∧ wav_path cfg world = pre ++ uuid4 world ++ ".wav")
  ∧ (∃ pre, (pre = RESULT_DIR cfg ∨ pre = RESULT_DIR cfg ++ "/")
            ∧ out_path cfg world = pre ++ uuid4 world ++ ".json")
  ∧ OsPath.basename (src_path_of cfg world f) = uuid4 world ++ ext_of f
  ∧ OsPath.basename (wav_path cfg world) = uuid4 world ++ ".wav"
  ∧ OsPath.basename (out_path cfg world) = uuid4 world ++ ".json"
  ∧ occurs OsPath.sep (uuid4 world ++ ext_of f) = false
  ∧ (∀ f', ext_of f' = ext_of f →
           src_path_of cfg world f' = src_path_of cfg world f).
Proof.
  intros Hj.
  assert (H1 : occurs OsPath.sep (uuid4 world ++ ext_of f) = false)
    by (by rewrite occurs_app, Hj, ext_of_no_sep).
  assert (H2 : occurs OsPath.sep (uuid4 world ++ ".wav") = false)
    by (by rewrite occurs_app, Hj).
  assert (H3 : occurs OsPath.sep (uuid4 world ++ ".json") = false)
    by (by rewrite occurs_app, Hj).
  unfold src_path_of, wav_path, out_path.
  split; [| split; [| split; [| split; [| split; [| split]]]]].
  - unfold OsPath.join.
    rewrite (startswith_no_sep _ H1), (startswith_no_sep _ H2).
    destruct (_ || _)%bool.
    + exists (UPLOAD_DIR cfg). split; [by left | done].
    + exists (UPLOAD_DIR cfg ++ "/"). split; [by right |].
      by rewrite !append_assoc.
  - destruct (join_prefix (RESULT_DIR cfg) _ H3) as (pre & Hpre & ->).
    by exists pre.
  - by apply basename_join.
  - by apply basename_join.
  - by apply basename_join.
  - exact H1.
  - by intros f' ->.
Qed.

Lemma upload_paths_witness :
  occurs OsPath.sep (uuid4 world_ok) = false
  ∧ src_path_of default_config world_ok
      {| filename := "../../etc/cron.d/Evil.MP3"; stream := "x" |}
    = "uploads/1b4e28ba.mp3".
Proof.
  split; [reflexivity |].
  destruct (upload_paths default_config world_ok talk_mp3 eq_refl)
    as (_ & _ & _ & _ & _ & _ & Hsame).
  rewrite (Hsame {| filename := "../../etc/cron.d/Evil.MP3"; stream := "x" |});
    reflexivity.
Defined.

(** ** Requests with different job ids *)

Lemma append_dot_inj j1 : ∀ j2 x y,
  occurs OsPath.extsep j1 = false → occurs OsPath.extsep j2 = false →
  (x = "" ∨ Py.startswith OsPath.extsep x = true) →
  (y = "" ∨ Py.startswith OsPath.extsep y = true) →
  j1 ++ x = j2 ++ y → j1 = j2.
Proof.
  induction j1 as [| c j1 IH]; intros j2 x y H1 H2 Hx Hy Heq.
  - destruct j2 as [| c j2]; [reflexivity |]. exfalso.
    rewrite append_nil, append_cons in Heq.
    destruct Hx as [-> | Hx]; [discriminate |]. subst x.
    cbn [Py.startswith] in Hx. apply Ascii.eqb_eq in Hx as ->.
    cbn [occurs] in H2. by rewrite Ascii.eqb_refl in H2.
  - destruct j2 as [| c' j2].
    + exfalso. rewrite append_nil, append_cons in Heq.
      destruct Hy as [-> | Hy]; [discriminate |]. subst y.
      cbn [Py.startswith] in Hy. apply Ascii.eqb_eq in Hy as ->.
      cbn [occurs] in H1. by rewrite Ascii.eqb_refl in H1.
    + rewrite !append_cons in Heq. injection Heq as -> Heq.
      cbn [occurs] in H1, H2.
      apply orb_false_iff in H1 as [_ H1]. apply orb_false_iff in H2 as [_ H2].
      f_equal. by apply (IH j2 x y).
Qed.

Lemma ext_of_empty_or_dot f :
  ext_of f = "" ∨ Py.startswith OsPath.extsep (ext_of f) = true.
Proof.
  destruct (ext_of_well_formed f) as (_ & [-> | (y & -> & _)]);
    [by left | right]. cbn [Py.startswith]. apply Ascii.eqb_refl.
Qed.

(** [upload] changes no path but those of its own job. *)
Lemma upload_unchanged_at cfg world request s p :
  (∀ f, accepted cfg request f →
        p ≠ src_path_of cfg world f ∧ p ≠ wav_path cfg world
        ∧ p ≠ out_path cfg world) →
  fs (state_of (upload cfg world request s)) !! p = fs s !! p.
Proof.
  intros Hp.
  destruct (upload_rejected_or_accepted cfg world request s)
    as [(msg & Hrun & _) | (f & Hacc)]; [by rewrite Hrun |].
  destruct (Hp f Hacc) as (Hsrc & Hwav & Hout).
  destruct (upload_fs cfg world request f s Hacc)
    as [(resp & result & Hr & Hst & ->) | (resp & Hr & Hst & ->)];
    rewrite ?lookup_insert_ne by done; by apply pre_model_state_other.
Qed.

(** The three paths of one job are not touched by a request that has
    another job id. *)
Lemma upload_other_job_unchanged cfg world1 f1 world2 request2 s :
  uuid_like (uuid4 world1) →
  uuid_like (uuid4 world2) →
  uuid4 world1 ≠ uuid4 world2 →
  ∀ p, p = src_path_of cfg world1 f1 ∨ p = wav_path cfg world1
       ∨ p = out_path cfg world1 →
       fs (state_of (upload cfg world2 request2 s)) !! p = fs s !! p.
Proof.
  intros [Hs1 Hd1] [Hs2 Hd2] Hne p Hp.
  assert (Hmine : ∃ d x, p = OsPath.join d (uuid4 world1 ++ x)
                         ∧ occurs OsPath.sep x = false
                         ∧ (x = "" ∨ Py.startswith OsPath.extsep x = true)).
  { destruct Hp as [-> | [-> | ->]].
    - exists (UPLOAD_DIR cfg), (ext_of f1).
      split; [done |]. split; [apply ext_of_no_sep | apply ext_of_empty_or_dot].
    - exists (UPLOAD_DIR cfg), ".wav". split; [done |]. split; [done | by right].
    - exists (RESULT_DIR cfg), ".json". split; [done |]. split; [done | by right]. }
  destruct Hmine as (d1 & x1 & -> & Hx1 & Hx1').
  assert (Hother : ∀ d2 x2,
    occurs OsPath.sep x2 = false →
    (x2 = "" ∨ Py.startswith OsPath.extsep x2 = true) →
    OsPath.join d1 (uuid4 world1 ++ x1) ≠ OsPath.join d2 (uuid4 world2 ++ x2)).
  { intros d2 x2 Hx2 Hx2' Heq.
    apply join_inj_no_sep in Heq;
      [| by rewrite occurs_app, Hs1 | by rewrite occurs_app, Hs2].
    apply Hne. by apply (append_dot_inj _ _ x1 x2). }
  apply upload_unchanged_at. intros f2 _. split; [| split].
  - apply Hother; [apply ext_of_no_sep | apply ext_of_empty_or_dot].
  - apply Hother; [done | by right].
  - apply Hother; [done | by right].
Qed.

(** X12: a request leaves the files of every other job alone.  With
    job ids that hold no separator and no dot, as UUIDs do, a request
    whose job id differs from that of an earlier one changes neither
    the saved upload, nor the WAV, nor the result file of the earlier
    one, whatever the two directories are. *)
Theorem upload_leaves_other_jobs cfg world1 f1 world2 request2 s :
  uuid_like (uuid4 world1) →
  uuid_like (uuid4 world2) →
  uuid4 world1 ≠ uuid4 world2 →
  fs (state_of (upload cfg world2 request2 s)) !! src_path_of cfg world1 f1
  = fs s !! src_path_of cfg world1 f1
  ∧ fs (state_of (upload cfg world2 request2 s)) !! wav_path cfg world1
    = fs s !! wav_path cfg world1
  ∧ fs (state_of (upload cfg world2 request2 s)) !! out_path cfg world1
    = fs s !! out_path cfg world1.
Proof.
  intros H1 H2 Hne.
  pose proof (upload_other_job_unchanged cfg world1 f1 world2 request2 s
                H1 H2 Hne) as H.
  split; [| split]; apply H; auto.
Qed.

Lemma upload_leaves_other_jobs_witness :
  uuid_like (uuid4 world_ok) ∧ uuid_like (uuid4 world_other)
  ∧ uuid4 world_ok ≠ uuid4 world_other
  ∧ fs (state_of (upload default_config world_other (request_of clip_mp4)
                    (state_of (upload default_config world_ok
                                 (request_of talk_mp3) fresh_state))))
      !! "results/1b4e28ba.json"
    = Some (JsonText (result_for default_config world_ok (request_of talk_mp3)
                        talk_mp3 two_segments info_en)).
Proof.
  assert (H1 : uuid_like (uuid4 world_ok)) by done.
  assert (H2 : uuid_like (uuid4 world_other)) by done.
  assert (H3 : uuid4 world_ok ≠ uuid4 world_other) by compute_done.
  split; [exact H1 |]. split; [exact H2 |]. split; [exact H3 |].
  destruct (upload_leaves_other_jobs default_config world_ok talk_mp3
              world_other (request_of clip_mp4)
              (state_of (upload default_config world_ok (request_of talk_mp3)
                           fresh_state)) H1 H2 H3) as (_ & _ & Hout).
  change "results/1b4e28ba.json" with (out_path default_config world_ok).
  rewrite Hout. by vm_compute.
Defined.

(** X13: the files of a job outlive every later request.  Through
    any sequence of health checks and uploads whose job ids are
    UUID-like and differ from that of a given job, the saved upload,
    the WAV and the result file of that job keep their contents. *)
Theorem serve_keeps_job_files cfg world f cs : ∀ s,
  uuid_like (uuid4 world) →
  Forall (λ j, uuid_like j ∧ j ≠ uuid4 world) (job_ids cs) →
  ∀ p, p = src_path_of cfg world f ∨ p = wav_path cfg world
       ∨ p = out_path cfg world →
       fs (state_of (serve cfg cs s)) !! p = fs s !! p.
Proof.
  induction cs as [| c cs IH]; intros s Hj Hcs p Hp; [reflexivity |].
  destruct (serve_cons cfg c cs s) as (resp & _ & _ & -> & _).
  destruct c as [| world' request]; cbn [job_ids] in Hcs.
  - by apply IH.
  - apply Forall_cons in Hcs as [[Hj' Hne] Hcs].
    rewrite IH by done. cbn [handle].
    by apply (upload_other_job_unchanged cfg world f world' request s).
Qed.

Lemma serve_keeps_job_files_witness :
  uuid_like (uuid4 world_ok)
  ∧ Forall (λ j, uuid_like j ∧ j ≠ uuid4 world_ok)
      (job_ids [Healthz; Upload world_other (request_of clip_mp4);
                Upload world_model_unavailable (request_of talk_mp3)])
  ∧ fs (state_of (serve default_config
                    [Healthz; Upload world_other (request_of clip_mp4);
                     Upload world_model_unavailable (request_of talk_mp3)]
                    (state_of (upload default_config world_ok
                                 (request_of talk_mp3) fresh_state))))
      !! "uploads/1b4e28ba.mp3"
    = Some (Bytes "ID3").
Proof.
  assert (H1 : uuid_like (uuid4 world_ok)) by done.
  assert (H2 : Forall (λ j, uuid_like j ∧ j ≠ uuid4 world_ok)
                 (job_ids [Healthz; Upload world_other (request_of clip_mp4);
                           Upload world_model_unavailable (request_of talk_mp3)])).
  { cbn [job_ids]. repeat constructor; compute_done. }
  split; [exact H1 |]. split; [exact H2 |].
  rewrite (serve_keeps_job_files default_config world_ok talk_mp3 _ _ H1 H2
             "uploads/1b4e28ba.mp3"); [by vm_compute |].
  left. reflexivity.
Defined.

(** ** Conversions *)

Lemma ffmpeg_cmd_inj i o i' o' :
  ffmpeg_cmd i o = ffmpeg_cmd i' o' → i = i' ∧ o = o'.
Proof. by intros [= -> ->]. Qed.

(** The ffmpeg calls of [upload]. *)
Lemma upload_ffmpeg_call cfg world request s cmd :
  EvSubprocess cmd ∈ calls_of (upload cfg world request s)
  ↔ ∃ f, accepted cfg request f ∧ is_video (ext_of f) = true
         ∧ cmd = ffmpeg_cmd (src_path_of cfg world f) (wav_path cfg world).
Proof.
  assert (Hg : ∀ s', EvSubprocess cmd ∉ calls_of (get_model cfg world s')).
  { intros s' H%get_model_calls_constructor. discriminate. }
  assert (Hpre : ∀ f, EvSubprocess cmd ∈ pre_model_calls cfg world f
                      ↔ is_video (ext_of f) = true
                        ∧ cmd = ffmpeg_cmd (src_path_of cfg world f)
                                  (wav_path cfg world)).
  { intros f. unfold pre_model_calls.
    destruct (is_video _); rewrite ?elem_of_cons, elem_of_nil.
    - split; [intros [[=] | [[= ->] | []]]; done | intros [_ ->]; auto].
    - split; [intros [[=] | []] | by intros [? _]]. }
  destruct (upload_outcome cfg world request s)
    as [msg Hrej | f e Hacc Hv He | f e Hacc Hff Hgm
       | f m e Hacc Hff Hgm Ht | f m sg inf Hacc Hff Hgm Ht];
    rewrite calls_of_run.
  - rewrite elem_of_nil. split; [done |]. intros (f & Hacc & _).
    by eapply accepted_not_rejected.
  - rewrite Hpre. split; [intros [? ->]; eauto |].
    intros (f' & Hacc' & Hv' & ->).
    by pose proof (accepted_unique _ _ _ _ Hacc Hacc') as ->.
  - rewrite elem_of_app, Hpre. split.
    + intros [[? ->] | ?%Hg]; [eauto | done].
    + intros (f' & Hacc' & Hv' & ->). left.
      by pose proof (accepted_unique _ _ _ _ Hacc Hacc') as ->.
  - rewrite !elem_of_app, Hpre, list_elem_of_singleton. split.
    + intros [[? ->] | [?%Hg | [=]]]; [eauto | done].
    + intros (f' & Hacc' & Hv' & ->). left.
      by pose proof (accepted_unique _ _ _ _ Hacc Hacc') as ->.
  - rewrite !elem_of_app, Hpre, !elem_of_cons, elem_of_nil. split.
    + intros [[? ->] | [?%Hg | [[=] | [[=] | []]]]]; [eauto | done].
    + intros (f' & Hacc' & Hv' & ->). left.
      by pose proof (accepted_unique _ _ _ _ Hacc Hacc') as ->.
Qed.

(** The ffmpeg calls of [transcribe_file]. *)
Lemma transcribe_file_ffmpeg_call cfg world file_path s cmd :
  EvSubprocess cmd ∈ calls_of (transcribe_file cfg world file_path s) →
  is_video (Py.lower (snd (OsPath.splitext file_path))) = true
  ∧ cmd = ffmpeg_cmd file_path (cli_wav_path file_path).
Proof.
  assert (Hg : ∀ s', EvSubprocess cmd ∉ calls_of (get_model cfg world s')).
  { intros s' H%get_model_calls_constructor. discriminate. }
  assert (Hpre : EvSubprocess cmd ∈ cli_pre_calls file_path →
                 is_video (Py.lower (snd (OsPath.splitext file_path))) = true
                 ∧ cmd = ffmpeg_cmd file_path (cli_wav_path file_path)).
  { unfold cli_pre_calls. destruct (is_video _);
      [by intros [= ->]%list_elem_of_singleton | by intros []%elem_of_nil]. }
  destruct (transcribe_file_cases cfg world file_path s)
    as [(e & Hv & He & ->)
       | [Hff [(e & Hr & ->)
              | [(m & e & Hr & Ht & ->) | (m & sg & inf & Hr & Ht & ->)]]]];
    rewrite calls_of_run, ?elem_of_app, ?elem_of_cons, ?elem_of_nil.
  - intros [Hin | [[=] | []]]. by apply Hpre.
  - intros [Hin | [Hin | [[=] | []]]]; [by apply Hpre | by apply Hg in Hin].
  - intros [Hin | [Hin | [[=] | [[=] | []]]]];
      [by apply Hpre | by apply Hg in Hin].
  - intros [Hin | [Hin | [[=] | [[=] | [[=] | []]]]]];
      [by apply Hpre | by apply Hg in Hin].
Qed.

(** X14: every process that [upload] or [transcribe_file] starts is an
    ffmpeg conversion of a video whose output path differs from its
    input path, so the [-y] flag never makes ffmpeg overwrite the
    file it reads. *)
Theorem conversions_keep_their_input cfg world :
  (∀ request s cmd,
     EvSubprocess cmd ∈ calls_of (upload cfg world request s) →
     ∃ f, accepted cfg request f ∧ is_video (ext_of f) = true
          ∧ cmd = ["ffmpeg"; "-y"; "-i"; src_path_of cfg world f; "-vn"; "-ac";
                   "1"; "-ar"; "16000"; wav_path cfg world]
          ∧ src_path_of cfg world f ≠ wav_path cfg world)
  ∧ (∀ file_path s cmd,
       EvSubprocess cmd ∈ calls_of (transcribe_file cfg world file_path s) →
       is_video (Py.lower (snd (OsPath.splitext file_path))) = true
       ∧ cmd = ["ffmpeg"; "-y"; "-i"; file_path; "-vn"; "-ac"; "1"; "-ar";
                "16000"; fst (OsPath.splitext file_path) ++ ".wav"]
       ∧ file_path ≠ fst (OsPath.splitext file_path) ++ ".wav").
Proof.
  split.
  - intros request s cmd (f & Hacc & Hv & ->)%upload_ffmpeg_call.
    exists f. split; [done |]. split; [done |]. split; [reflexivity |].
    by apply src_path_ne_wav_path.
  - intros file_path s cmd [Hv ->]%transcribe_file_ffmpeg_call.
    split; [done |]. split; [reflexivity |].
    intros Heq. by apply (cli_wav_path_ne file_path Hv).
Qed.



(** ** The two entry points agree *)

(** X16: the command-line entry and the upload endpoint build the
    same text.  When a request succeeds, a run of [transcribe_file]
    with the same model answer, whose conversion (for a video) and
    model loading do not fail, prints the header and then exactly the
    string returned under "text". *)
Theorem cli_prints_upload_text cfg world request s resp file_path s' m :
  result_of (upload cfg world request s) = inr resp →
  status resp = 200 →
  (is_video (Py.lower (snd (OsPath.splitext file_path))) = true →
   result_of (ffmpeg_extract_audio world file_path (cli_wav_path file_path) s')
   = inr tt) →
  result_of (get_model cfg world s') = inr m →
  ∃ result text,
    dict_get "result" (body resp) = Some result
    ∧ dict_get "text" result = Some (JStr text)
    ∧ printed (calls_of (transcribe_file cfg world file_path s'))
      = [nl ++ "Transcription result:" ++ nl; text].
Proof.
  intros Hr Hst Hff Hg.
  destruct (upload_success _ _ _ _ _ Hr Hst)
    as (f & m0 & segments & info & _ & _ & _ & Ht & Hrun).
  rewrite Hrun, result_of_run in Hr. injection Hr as <-.
  exists (result_for cfg world request f segments info),
    (full_text_of (map seg_dict segments)).
  split; [reflexivity |]. split; [reflexivity |].
  assert (Hgm : result_of (get_model cfg world (cli_pre_state world file_path s'))
                = inr m).
  { rewrite <- Hg. apply get_model_depends_on_model, cli_pre_state_model. }
  assert (Hff' : is_video (Py.lower (snd (OsPath.splitext file_path))) = true →
                 ffmpeg_result world = inr tt).
  { intros Hv. specialize (Hff Hv).
    by rewrite ffmpeg_extract_audio_run, result_of_run in Hff. }
  destruct (transcribe_file_cases cfg world file_path s')
    as [(e & Hv & He & _)
       | [_ [(e & Hr' & _)
            | [(m' & e & _ & Ht' & _) | (m' & sg & inf & _ & Ht' & ->)]]]].
  - rewrite (Hff' Hv) in He. discriminate.
  - congruence.
  - congruence.
  - rewrite calls_of_run, !printed_app, printed_cli_pre_calls, printed_get_model.
    cbn [printed app]. congruence.
Qed.

Lemma cli_prints_upload_text_witness :
  ∃ resp,
    result_of (upload default_config world_ok (request_of talk_mp3) fresh_state)
    = inr resp
    ∧ status resp = 200
    ∧ printed (calls_of (transcribe_file default_config world_ok "talk.mp3"
                           fresh_state))
      = [nl ++ "Transcription result:" ++ nl; "Hello there. General remarks."].
Proof.
  eexists. split; [reflexivity |]. split; [reflexivity |].
  destruct (cli_prints_upload_text default_config world_ok (request_of talk_mp3)
              fresh_state _ "talk.mp3" fresh_state
              (built_model default_config 1) eq_refl eq_refl)
    as (result & text & Hres & Htext & ->); [discriminate | reflexivity |].
  injection Hres as <-. injection Htext as <-. reflexivity.
Defined.

(** ** The handle after a request *)

(** X17: a model that a request obtained stays loaded whatever
    happens next.  For an accepted upload whose conversion, if any,
    did not fail, the handle [get_model] returns is the one stored
    when the request ends, also when the transcription raises and
    the request is answered with 500. *)
Theorem upload_keeps_loaded_model cfg world request f s m :
  accepted cfg request f →
  (is_video (ext_of f) = true → result_of (ffmpeg_step cfg world f s) = inr tt) →
  result_of (get_model cfg world s) = inr m →
  _model (state_of (upload cfg world request s)) = Some m
  ∧ (∀ e, model_transcribe world = inl e →
          result_of (upload cfg world request s)
          = inr {| status := 500;
                   body := JDict [("error", JStr "transcription failed");
                                  ("detail", JStr e)] |}).
Proof.
  intros Hacc Hff Hg.
  rewrite <- (get_model_pre cfg world f s) in Hg.
  pose proof (get_model_returns_stored _ _ _ _ Hg) as Hm.
  assert (Hok : is_video (ext_of f) = true → ffmpeg_result world = inr tt)
    by (intros Hv; rewrite <- (ffmpeg_step_result cfg world f s); auto).
  accepted_outcome Hacc; rewrite state_of_run, result_of_run.
  - rewrite (Hok Hv') in He'. discriminate.
  - congruence.
  - split; [exact Hm |]. intros e Ht. by assert (e' = e) as -> by congruence.
  - rewrite write_file_model. split; [exact Hm |]. congruence.
Qed.

Lemma upload_keeps_loaded_model_witness :
  accepted default_config (request_of talk_mp3) talk_mp3
  ∧ result_of (get_model default_config world_model_fails fresh_state)
    = inr (built_model default_config 1)
  ∧ _model (state_of (upload default_config world_model_fails
                        (request_of talk_mp3) fresh_state))
    = Some (built_model default_config 1)
  ∧ result_of (upload default_config world_model_fails (request_of talk_mp3)
                 fresh_state)
    = inr {| status := 500;
             body := JDict [("error", JStr "transcription failed");
                            ("detail", JStr "out of memory")] |}.
Proof.
  split; [exact talk_mp3_accepted |]. split; [reflexivity |].
  destruct (upload_keeps_loaded_model default_config world_model_fails
              (request_of talk_mp3) talk_mp3 fresh_state
              (built_model default_config 1) talk_mp3_accepted)
    as [Hm Hr]; [discriminate | reflexivity |].
  split; [exact Hm | by apply Hr].
Defined.
